(** * ModelViewer (src/js/modelViewer.js)

    A shallow embedding of the [ModelViewer] class and of the page that
    drives it.  JavaScript numbers are read as real numbers: the framing
    arithmetic of the load callback is stated over [R], without rounding.

    The class is a composition of three.js objects.  Of those objects the
    development keeps the state this file reads or writes (positions,
    scales, the camera parameters, the renderer size, the controller's
    settings) and a log of the calls made on them.  The orbit controller's
    own camera arithmetic is not part of the repository: it is a parameter
    of the development ([orbit_new], [orbit_update]). *)

From Stdlib Require Import Reals Lra List String ZArith Bool Arith Lia.
Import ListNotations.
Open Scope R_scope.

(** ** three.js values *)

Record Vector3 := vec3 { x : R; y : R; z : R }.

(** [Box3]: [None] is the empty box ([makeEmpty]); a box built from points
    always has [box_min <= box_max] on every axis. *)
Record Bounds := { box_min : Vector3; box_max : Vector3 }.
Definition Box3 := option Bounds.

Definition expandByPoint (b : Box3) (p : Vector3) : Box3 :=
  match b with
  | None => Some {| box_min := p; box_max := p |}
  | Some bb =>
      Some {| box_min := vec3 (Rmin (x (box_min bb)) (x p))
                              (Rmin (y (box_min bb)) (y p))
                              (Rmin (z (box_min bb)) (z p));
              box_max := vec3 (Rmax (x (box_max bb)) (x p))
                              (Rmax (y (box_max bb)) (y p))
                              (Rmax (z (box_max bb)) (z p)) |}
  end.

Definition setFromPoints (ps : list Vector3) : Box3 :=
  fold_left expandByPoint ps None.

(** [Box3.getCenter]: the origin for the empty box, the midpoint otherwise. *)
Definition getCenter (b : Box3) : Vector3 :=
  match b with
  | None => vec3 0 0 0
  | Some bb => vec3 ((x (box_min bb) + x (box_max bb)) * 0.5)
                    ((y (box_min bb) + y (box_max bb)) * 0.5)
                    ((z (box_min bb) + z (box_max bb)) * 0.5)
  end.

(** [Box3.getSize]: zero for the empty box, [max - min] otherwise. *)
Definition getSize (b : Box3) : Vector3 :=
  match b with
  | None => vec3 0 0 0
  | Some bb => vec3 (x (box_max bb) - x (box_min bb))
                    (y (box_max bb) - y (box_min bb))
                    (z (box_max bb) - z (box_min bb))
  end.

(** An [Object3D] as [loadModel] uses it: a position, a scale, and the
    points of its geometry in the object's own frame (the corners that
    [Box3.setFromObject] visits).  The scene root of a glTF asset carries
    no rotation and the scene it is added to is never moved, so a point's
    world position is [position + scale * point], axis by axis. *)
Record Object3D := {
  obj_position : Vector3;
  obj_scale    : Vector3;
  obj_points   : list Vector3
}.

Definition localToWorld (o : Object3D) (p : Vector3) : Vector3 :=
  vec3 (x (obj_position o) + x (obj_scale o) * x p)
       (y (obj_position o) + y (obj_scale o) * y p)
       (z (obj_position o) + z (obj_scale o) * z p).

(** [new THREE.Box3().setFromObject(o)] *)
Definition setFromObject (o : Object3D) : Box3 :=
  setFromPoints (map (localToWorld o) (obj_points o)).

Inductive LightKind := AmbientLight | DirectionalLight.

Record Light := {
  light_kind      : LightKind;
  light_color     : Z;
  light_intensity : R;
  light_position  : Vector3
}.

(** Children of the scene: a light, or a reference to an object of the
    store ([this.model] and the scene share the loaded object). *)
Inductive SceneChild :=
| SceneLight (l : Light)
| SceneObject (ref : nat).

(** The parameters the projection matrix was last computed from. *)
Record Projection := {
  proj_fov : R; proj_aspect : R; proj_near : R; proj_far : R
}.

(** [THREE.PerspectiveCamera] *)
Record Camera := {
  fov : R; aspect : R; near : R; far : R;
  cam_position : Vector3;
  projectionMatrix : Projection
}.

Definition PerspectiveCamera (fov0 aspect0 near0 far0 : R) : Camera :=
  {| fov := fov0; aspect := aspect0; near := near0; far := far0;
     cam_position := vec3 0 0 0;
     projectionMatrix := {| proj_fov := fov0; proj_aspect := aspect0;
                            proj_near := near0; proj_far := far0 |} |}.

Definition updateProjectionMatrix (c : Camera) : Camera :=
  {| fov := fov c; aspect := aspect c; near := near c; far := far c;
     cam_position := cam_position c;
     projectionMatrix := {| proj_fov := fov c; proj_aspect := aspect c;
                            proj_near := near c; proj_far := far c |} |}.

Definition camera_set_position (p : Vector3) (c : Camera) : Camera :=
  {| fov := fov c; aspect := aspect c; near := near c; far := far c;
     cam_position := p; projectionMatrix := projectionMatrix c |}.

Definition camera_set_aspect (a : R) (c : Camera) : Camera :=
  {| fov := fov c; aspect := a; near := near c; far := far c;
     cam_position := cam_position c; projectionMatrix := projectionMatrix c |}.

Inductive CssValue := css_unset | css_text (s : string) | css_px (n : R).

(** [renderer.domElement] with the style properties [init] writes. *)
Record Canvas := {
  style_width : CssValue; style_height : CssValue;
  style_position : CssValue; style_top : CssValue; style_left : CssValue
}.

(** [THREE.WebGLRenderer] *)
Record Renderer := {
  pixelRatio : R;
  width : R; height : R;
  clearColor : Z; clearAlpha : R;
  domElement : Canvas
}.

(** [renderer.setSize(w, h)]: the drawing size, and (with the default
    [updateStyle]) the canvas style size in pixels. *)
Definition setSize (w h : R) (r : Renderer) : Renderer :=
  {| pixelRatio := pixelRatio r; width := w; height := h;
     clearColor := clearColor r; clearAlpha := clearAlpha r;
     domElement := {| style_width := css_px w; style_height := css_px h;
                      style_position := style_position (domElement r);
                      style_top := style_top (domElement r);
                      style_left := style_left (domElement r) |} |}.

Definition setPixelRatio (p : R) (r : Renderer) : Renderer :=
  {| pixelRatio := p; width := width r; height := height r;
     clearColor := clearColor r; clearAlpha := clearAlpha r;
     domElement := domElement r |}.

Definition setClearColor (c : Z) (a : R) (r : Renderer) : Renderer :=
  {| pixelRatio := pixelRatio r; width := width r; height := height r;
     clearColor := c; clearAlpha := a; domElement := domElement r |}.

Definition setStyle (cv : Canvas) (r : Renderer) : Renderer :=
  {| pixelRatio := pixelRatio r; width := width r; height := height r;
     clearColor := clearColor r; clearAlpha := clearAlpha r;
     domElement := cv |}.

(** [THREE.Clock], with [autoStart] on. *)
Record Clock := {
  running : bool; oldTime : R; elapsedTime : R
}.

Definition newClock : Clock :=
  {| running := false; oldTime := 0; elapsedTime := 0 |}.

(** [clock.getDelta()] at page time [t] (milliseconds): the first call
    starts the clock and answers 0, later calls answer the seconds since
    the call before. *)
Definition getDelta (t : R) (c : Clock) : R * Clock :=
  if running c
  then let diff := (t - oldTime c) / 1000 in
       (diff, {| running := true; oldTime := t;
                 elapsedTime := elapsedTime c + diff |})
  else (0, {| running := true; oldTime := t; elapsedTime := 0 |}).

Record AnimationClip := { clip_name : string; clip_duration : R }.

(** [THREE.AnimationMixer]: its root object, its time, and the clips whose
    action has been played. *)
Record AnimationMixer := {
  mixer_root : nat;
  mixer_time : R;
  mixer_playing : list AnimationClip
}.

Definition newAnimationMixer (root : nat) : AnimationMixer :=
  {| mixer_root := root; mixer_time := 0; mixer_playing := [] |}.

(** [mixer.clipAction(clip).play()] *)
Definition playClip (c : AnimationClip) (m : AnimationMixer) : AnimationMixer :=
  {| mixer_root := mixer_root m; mixer_time := mixer_time m;
     mixer_playing := mixer_playing m ++ [c] |}.

(** [mixer.update(delta)] *)
Definition mixer_update (delta : R) (m : AnimationMixer) : AnimationMixer :=
  {| mixer_root := mixer_root m; mixer_time := mixer_time m + delta;
     mixer_playing := mixer_playing m |}.

(** What [GLTFLoader] hands to the completion callback.  [animations] is
    an optional array, as the callback's guard reads it. *)
Record GLTF := {
  gltf_scene : Object3D;
  animations : option (list AnimationClip)
}.

(** [OrbitControls]: the settings [init] writes, the target, and the
    controller's own bookkeeping (spherical offsets, damping, pointer
    state), of a type [P] the viewer never looks into. *)
Record OrbitControls (P : Type) := {
  enableDamping : bool;
  dampingFactor : R;
  screenSpacePanning : bool;
  minDistance : R;
  maxDistance : R;
  autoRotate : bool;
  autoRotateSpeed : R;
  enableZoom : bool;
  enablePan : bool;
  target : Vector3;
  orbit_private : P
}.
Arguments enableDamping {P}.
Arguments dampingFactor {P}.
Arguments screenSpacePanning {P}.
Arguments minDistance {P}.
Arguments maxDistance {P}.
Arguments autoRotate {P}.
Arguments autoRotateSpeed {P}.
Arguments enableZoom {P}.
Arguments enablePan {P}.
Arguments target {P}.
Arguments orbit_private {P}.

(** [controls.target.set(...)] *)
Definition set_target {P : Type} (v : Vector3) (c : OrbitControls P)
  : OrbitControls P :=
  {| enableDamping := enableDamping c;
     dampingFactor := dampingFactor c;
     screenSpacePanning := screenSpacePanning c;
     minDistance := minDistance c;
     maxDistance := maxDistance c;
     autoRotate := autoRotate c;
     autoRotateSpeed := autoRotateSpeed c;
     enableZoom := enableZoom c;
     enablePan := enablePan c;
     target := v;
     orbit_private := orbit_private c |}.

(** The controller's pointer listeners write its private state. *)
Definition set_private {P : Type} (p : P) (c : OrbitControls P)
  : OrbitControls P :=
  {| enableDamping := enableDamping c;
     dampingFactor := dampingFactor c;
     screenSpacePanning := screenSpacePanning c;
     minDistance := minDistance c;
     maxDistance := maxDistance c;
     autoRotate := autoRotate c;
     autoRotateSpeed := autoRotateSpeed c;
     enableZoom := enableZoom c;
     enablePan := enablePan c;
     target := target c;
     orbit_private := p |}.

(** ** The page *)

Record Window := {
  innerWidth : R; innerHeight : R; devicePixelRatio : R
}.

Inductive Element := RendererCanvas.

(** The element [document.getElementById(containerId)] finds. *)
Record Container := { children : list Element }.

(** Calls on the library and on the browser, in the order they are made. *)
Inductive Call :=
| CallSetPixelRatio (r : R)
| CallSetSize (w h : R)
| CallSetClearColor (c : Z) (a : R)
| CallAppendChild (e : Element)
| CallNewOrbitControls
| CallAddEventListener (type : string)
| CallSceneAdd (c : SceneChild)
| CallLoaderLoad (url : string)
| CallClipActionPlay (c : AnimationClip)
| CallUpdateProjectionMatrix
| CallControlsUpdate
| CallGetDelta
| CallMixerUpdate (delta : R)
| CallRender (scene : list SceneChild) (cam : Camera)
| CallRequestAnimationFrame
| CallConsoleLog (percent : R)
| CallConsoleError (error : string).

Inductive JsError := TypeError (what : string).

(** What the browser holds for the page: the window, the page time
    ([performance.now()]), and what the viewer has asked of it. *)
Record Page := {
  window : Window;
  now : R;
  resizeListeners : nat;
  loading : bool;
  frameRequests : nat;
  calls : list Call
}.

Definition page_window (w : Window) (p : Page) : Page :=
  {| window := w; now := now p; resizeListeners := resizeListeners p;
     loading := loading p; frameRequests := frameRequests p; calls := calls p |}.
Definition page_now (t : R) (p : Page) : Page :=
  {| window := window p; now := t; resizeListeners := resizeListeners p;
     loading := loading p; frameRequests := frameRequests p; calls := calls p |}.
Definition page_resizeListeners (n : nat) (p : Page) : Page :=
  {| window := window p; now := now p; resizeListeners := n;
     loading := loading p; frameRequests := frameRequests p; calls := calls p |}.
Definition page_loading (b : bool) (p : Page) : Page :=
  {| window := window p; now := now p; resizeListeners := resizeListeners p;
     loading := b; frameRequests := frameRequests p; calls := calls p |}.
Definition page_frameRequests (n : nat) (p : Page) : Page :=
  {| window := window p; now := now p; resizeListeners := resizeListeners p;
     loading := loading p; frameRequests := n; calls := calls p |}.
Definition page_call (c : Call) (p : Page) : Page :=
  {| window := window p; now := now p; resizeListeners := resizeListeners p;
     loading := loading p; frameRequests := frameRequests p;
     calls := calls p ++ [c] |}.

(** [store[i] = o] on the object store; out of range nothing is stored
    (the viewer only writes through references it holds). *)
Fixpoint store_set (i : nat) (o : Object3D) (l : list Object3D) : list Object3D :=
  match l, i with
  | [], _ => []
  | _ :: t, O => o :: t
  | h :: t, S j => h :: store_set j o t
  end.

Section Viewer.

(** The orbit controller of three.js: its private state, its constructor
    and its [update()], which moves the camera it was given. *)
Context {P : Type}.
Variable orbit_new : Camera -> OrbitControls P * Camera.
Variable orbit_update : OrbitControls P -> Camera -> OrbitControls P * Camera.

(** ** The viewer object *)

Record Viewer := {
  container : option Container;
  scene     : list SceneChild;
  camera    : Camera;
  renderer  : Renderer;
  controls  : option (OrbitControls P);
  model     : option nat;
  mixer     : option AnimationMixer;
  clock     : Clock;
  objects   : list Object3D;
  page      : Page
}.

Definition with_container (v : option Container) (s : Viewer) : Viewer :=
  {| container := v; scene := scene s; camera := camera s;
     renderer := renderer s; controls := controls s; model := model s;
     mixer := mixer s; clock := clock s; objects := objects s; page := page s |}.
Definition with_scene (v : list SceneChild) (s : Viewer) : Viewer :=
  {| container := container s; scene := v; camera := camera s;
     renderer := renderer s; controls := controls s; model := model s;
     mixer := mixer s; clock := clock s; objects := objects s; page := page s |}.
Definition with_camera (v : Camera) (s : Viewer) : Viewer :=
  {| container := container s; scene := scene s; camera := v;
     renderer := renderer s; controls := controls s; model := model s;
     mixer := mixer s; clock := clock s; objects := objects s; page := page s |}.
Definition with_renderer (v : Renderer) (s : Viewer) : Viewer :=
  {| container := container s; scene := scene s; camera := camera s;
     renderer := v; controls := controls s; model := model s;
     mixer := mixer s; clock := clock s; objects := objects s; page := page s |}.
Definition with_controls (v : option (OrbitControls P)) (s : Viewer) : Viewer :=
  {| container := container s; scene := scene s; camera := camera s;
     renderer := renderer s; controls := v; model := model s;
     mixer := mixer s; clock := clock s; objects := objects s; page := page s |}.
Definition with_model (v : option nat) (s : Viewer) : Viewer :=
  {| container := container s; scene := scene s; camera := camera s;
     renderer := renderer s; controls := controls s; model := v;
     mixer := mixer s; clock := clock s; objects := objects s; page := page s |}.
Definition with_mixer (v : option AnimationMixer) (s : Viewer) : Viewer :=
  {| container := container s; scene := scene s; camera := camera s;
     renderer := renderer s; controls := controls s; model := model s;
     mixer := v; clock := clock s; objects := objects s; page := page s |}.
Definition with_clock (v : Clock) (s : Viewer) : Viewer :=
  {| container := container s; scene := scene s; camera := camera s;
     renderer := renderer s; controls := controls s; model := model s;
     mixer := mixer s; clock := v; objects := objects s; page := page s |}.
Definition with_objects (v : list Object3D) (s : Viewer) : Viewer :=
  {| container := container s; scene := scene s; camera := camera s;
     renderer := renderer s; controls := controls s; model := model s;
     mixer := mixer s; clock := clock s; objects := v; page := page s |}.
Definition with_page (v : Page) (s : Viewer) : Viewer :=
  {| container := container s; scene := scene s; camera := camera s;
     renderer := renderer s; controls := controls s; model := model s;
     mixer := mixer s; clock := clock s; objects := objects s; page := v |}.

Definition log (c : Call) (s : Viewer) : Viewer :=
  with_page (page_call c (page s)) s.

(** ** Statements: state passing with uncaught exceptions *)

Inductive Completion :=
| Normal (s : Viewer)
| Thrown (e : JsError) (s : Viewer).

Definition Act := Viewer -> Completion.

Definition skip : Act := Normal.

Definition seq (a b : Act) : Act := fun s =>
  match a s with
  | Normal s' => b s'
  | Thrown e s' => Thrown e s'
  end.

Notation "a ;; b" := (seq a b) (at level 61, right associativity).

Definition assign (f : Viewer -> Viewer) : Act := fun s => Normal (f s).

Definition reading (k : Viewer -> Act) : Act := fun s => k s s.

Definition call (c : Call) : Act := assign (log c).

(** The state a handler leaves behind, however it ended. *)
Definition state_of (c : Completion) : Viewer :=
  match c with Normal s => s | Thrown _ s => s end.

(** [this.controls.<...>]: a [TypeError] while [this.controls] is null. *)
Definition on_controls (f : OrbitControls P -> OrbitControls P) : Act := fun s =>
  match controls s with
  | Some c => Normal (with_controls (Some (f c)) s)
  | None => Thrown (TypeError "this.controls is null") s
  end.

(** [this.model.<...>]: a [TypeError] while [this.model] is null. *)
Definition on_model (f : Object3D -> Object3D) : Act := fun s =>
  match model s with
  | Some r =>
      match nth_error (objects s) r with
      | Some o => Normal (with_objects (store_set r (f o) (objects s)) s)
      | None => Thrown (TypeError "this.model is undefined") s
      end
  | None => Thrown (TypeError "this.model is null") s
  end.

(** [this.controls.update()] *)
Definition controls_update : Act := fun s =>
  match controls s with
  | Some c =>
      let moved := orbit_update c (camera s) in
      Normal (log CallControlsUpdate
                (with_camera (snd moved)
                   (with_controls (Some (fst moved)) s)))
  | None => Thrown (TypeError "this.controls is null") s
  end.

(** [this.camera.updateProjectionMatrix()] *)
Definition camera_updateProjectionMatrix : Act :=
  assign (fun s => log CallUpdateProjectionMatrix
                     (with_camera (updateProjectionMatrix (camera s)) s)).

(** [this.renderer.setSize(w, h)] *)
Definition renderer_setSize (w h : R) : Act :=
  assign (fun s => log (CallSetSize w h)
                     (with_renderer (setSize w h (renderer s)) s)).

(** [this.scene.add(child)] *)
Definition scene_add (c : SceneChild) : Act :=
  assign (fun s => log (CallSceneAdd c) (with_scene (scene s ++ [c]) s)).

(** ** The methods of [ModelViewer] *)

(** The settings [init] writes on the fresh controller. *)
Definition configure (c : OrbitControls P) : OrbitControls P :=
  {| enableDamping := true;
     dampingFactor := 0.05;
     screenSpacePanning := false;
     minDistance := 2;
     maxDistance := 10;
     autoRotate := true;
     autoRotateSpeed := 1.0;
     enableZoom := false;
     enablePan := false;
     target := vec3 0 0.5 0;
     orbit_private := orbit_private c |}.

Definition canvas_style : Canvas :=
  {| style_width := css_text "100%"; style_height := css_text "100%";
     style_position := css_text "absolute";
     style_top := css_text "0"; style_left := css_text "0" |}.

(** [this.container.appendChild(e)]: a [TypeError] when no element has the
    id the constructor was given. *)
Definition container_appendChild (e : Element) : Act := fun s =>
  match container s with
  | Some c =>
      Normal (log (CallAppendChild e)
                (with_container (Some {| children := children c ++ [e] |}) s))
  | None => Thrown (TypeError "this.container is null") s
  end.

(** [this.controls = new OrbitControls(this.camera, this.renderer.domElement)] *)
Definition new_controls : Act := fun s =>
  let made := orbit_new (camera s) in
  Normal (log CallNewOrbitControls
            (with_camera (snd made) (with_controls (Some (fst made)) s))).

Definition init : Act :=
  (* Setup renderer *)
  reading (fun s =>
    let r := devicePixelRatio (window (page s)) in
    assign (fun s => log (CallSetPixelRatio r)
                       (with_renderer (setPixelRatio r (renderer s)) s))) ;;
  reading (fun s =>
    renderer_setSize (innerWidth (window (page s)))
                     (innerHeight (window (page s)))) ;;
  assign (fun s => log (CallSetClearColor 0 0)
                     (with_renderer (setClearColor 0 0 (renderer s)) s)) ;;
  container_appendChild RendererCanvas ;;
  (* Setup camera *)
  assign (fun s =>
    with_camera (camera_set_position (vec3 0 1.5 4) (camera s)) s) ;;
  assign (fun s =>
    with_renderer (setStyle canvas_style (renderer s)) s) ;;
  (* Setup controls *)
  new_controls ;;
  on_controls configure ;;
  (* Handle window resize *)
  assign (fun s =>
    log (CallAddEventListener "resize")
      (with_page (page_resizeListeners (S (resizeListeners (page s)))
                    (page s)) s)).

Definition ambientLight : Light :=
  {| light_kind := AmbientLight; light_color := 0xffffff;
     light_intensity := 0.6; light_position := vec3 0 0 0 |}.
Definition frontLight : Light :=
  {| light_kind := DirectionalLight; light_color := 0xffffff;
     light_intensity := 1.2; light_position := vec3 0 2 4 |}.
Definition backLight : Light :=
  {| light_kind := DirectionalLight; light_color := 0xffffff;
     light_intensity := 0.8; light_position := vec3 0 1 (-2) |}.
Definition rightLight : Light :=
  {| light_kind := DirectionalLight; light_color := 0x00ffff;
     light_intensity := 0.6; light_position := vec3 2 0 0 |}.
Definition leftLight : Light :=
  {| light_kind := DirectionalLight; light_color := 0xff00ff;
     light_intensity := 0.6; light_position := vec3 (-2) 0 0 |}.

Definition setupLights : Act :=
  scene_add (SceneLight ambientLight) ;;
  scene_add (SceneLight frontLight) ;;
  scene_add (SceneLight backLight) ;;
  scene_add (SceneLight rightLight) ;;
  scene_add (SceneLight leftLight).

Definition model_url : string := "./robot_playground.glb".

(** [loadModel] only starts the load; the loader later delivers one of the
    three callbacks below. *)
Definition loadModel : Act :=
  assign (fun s => log (CallLoaderLoad model_url)
                     (with_page (page_loading true (page s)) s)).

Definition set_scale (v : Vector3) (o : Object3D) : Object3D :=
  {| obj_position := obj_position o; obj_scale := v;
     obj_points := obj_points o |}.
Definition set_position (v : Vector3) (o : Object3D) : Object3D :=
  {| obj_position := v; obj_scale := obj_scale o;
     obj_points := obj_points o |}.

(** [if (gltf.animations && gltf.animations.length) { ... }] *)
Definition setupAnimations (gltf : GLTF) : Act := fun s =>
  match animations gltf with
  | Some (clip :: _) =>
      match model s with
      | Some r =>
          Normal (log (CallClipActionPlay clip)
                    (with_mixer (Some (playClip clip (newAnimationMixer r))) s))
      | None => Thrown (TypeError "this.model is null") s
      end
  | _ => Normal s
  end.

(** [this.model] read as an object. *)
Definition the_model (k : Object3D -> Act) : Act := fun s =>
  match model s with
  | Some r =>
      match nth_error (objects s) r with
      | Some o => k o s
      | None => Thrown (TypeError "this.model is undefined") s
      end
  | None => Thrown (TypeError "this.model is null") s
  end.

(** The completion callback, up to its last statement. *)
Definition onLoad_framing (gltf : GLTF) : Act :=
  (* this.model = gltf.scene: the loaded object enters the store *)
  assign (fun s =>
    with_model (Some (List.length (objects s)))
      (with_objects (objects s ++ [gltf_scene gltf]) s)) ;;
  on_model (set_scale (vec3 1.2 1.2 1.2)) ;;
  on_model (set_position (vec3 0 (-0.5) 0)) ;;
  reading (fun s =>
    match model s with
    | Some r => scene_add (SceneObject r)
    | None => skip
    end) ;;
  (* Setup animations if they exist *)
  setupAnimations gltf ;;
  (* Center camera on model *)
  the_model (fun o =>
    let box := setFromObject o in
    let center := getCenter box in
    let size := getSize box in
    (* Adjust model position to center it *)
    on_model (fun m =>
      set_position (vec3 (x (obj_position m) - x center)
                         (y (obj_position m))
                         (z (obj_position m))) m) ;;
    on_model (fun m =>
      set_position (vec3 (x (obj_position m))
                         (y (obj_position m))
                         (z (obj_position m) - z center)) m) ;;
    (* Adjust camera position based on model size *)
    let maxDim := Rmax (Rmax (x size) (y size)) (z size) in
    reading (fun s =>
      let fov := fov (camera s) * (PI / 180) in
      let cameraZ := Rabs (maxDim / sin (fov / 2)) in
      (* Set camera position *)
      assign (fun s =>
        with_camera
          (camera_set_position
             (vec3 (x (cam_position (camera s)))
                   (y (cam_position (camera s)))
                   (cameraZ * 0.8))
             (camera s)) s)) ;;
    camera_updateProjectionMatrix ;;
    (* Update controls target *)
    on_controls (set_target (vec3 0 (y center * 0.8) 0))).

(** The completion callback of [loader.load]. *)
Definition onLoad (gltf : GLTF) : Act :=
  onLoad_framing gltf ;; controls_update.

(** The progress callback. *)
Definition onProgress (loaded total : R) : Act :=
  call (CallConsoleLog (loaded / total * 100)).

(** The error callback. *)
Definition onError (error : string) : Act :=
  call (CallConsoleError error).

Definition onWindowResize : Act :=
  reading (fun s =>
    let w := window (page s) in
    assign (fun s =>
      with_camera (camera_set_aspect (innerWidth w / innerHeight w)
                     (camera s)) s)) ;;
  camera_updateProjectionMatrix ;;
  reading (fun s =>
    renderer_setSize (innerWidth (window (page s)))
                     (innerHeight (window (page s)))).

(** [if (this.mixer) { this.mixer.update(this.clock.getDelta()); }] *)
Definition update_animations : Act := fun s =>
  match mixer s with
  | Some m =>
      let tick := getDelta (now (page s)) (clock s) in
      Normal (log (CallMixerUpdate (fst tick))
                (with_mixer (Some (mixer_update (fst tick) m))
                   (log CallGetDelta (with_clock (snd tick) s))))
  | None => Normal s
  end.

Definition requestAnimationFrame : Act :=
  assign (fun s =>
    log CallRequestAnimationFrame
      (with_page (page_frameRequests (S (frameRequests (page s)))
                    (page s)) s)).

Definition render : Act :=
  reading (fun s => call (CallRender (scene s) (camera s))).

Definition animate : Act :=
  requestAnimationFrame ;;
  (* Update controls *)
  controls_update ;;
  (* Update animations *)
  update_animations ;;
  (* Render scene *)
  render.

(** A [WebGLRenderer] as constructed; [init] overwrites the size, the
    pixel ratio and the clear colour before anything reads them. *)
Definition WebGLRenderer : Renderer :=
  {| pixelRatio := 1; width := 300; height := 150;
     clearColor := 0; clearAlpha := 0;
     domElement := {| style_width := css_unset; style_height := css_unset;
                      style_position := css_unset; style_top := css_unset;
                      style_left := css_unset |} |}.

Definition fresh_page (w : Window) (t : R) : Page :=
  {| window := w; now := t; resizeListeners := 0; loading := false;
     frameRequests := 0; calls := [] |}.

(** The fields the constructor writes before it calls [init].  [found] is
    what [document.getElementById(containerId)] answered. *)
Definition fields (found : option Container) (w : Window) (t : R) : Viewer :=
  {| container := found;
     scene := [];
     camera := PerspectiveCamera 75 (innerWidth w / innerHeight w) 0.1 1000;
     renderer := WebGLRenderer;
     controls := None;
     model := None;
     mixer := None;
     clock := newClock;
     objects := [];
     page := fresh_page w t |}.

Definition constructor (found : option Container) (w : Window) (t : R)
  : Completion :=
  (init ;; setupLights ;; loadModel ;; animate) (fields found w t).

(** ** The page's events *)

Inductive Event :=
| Frame (t : R)
| Resize (w h : R)
| Pointer (p : P)
| LoadProgress (loaded total : R)
| LoadDone (gltf : GLTF)
| LoadFailed (error : string).

(** An event can occur when the viewer has asked for it: a frame when one
    was requested, a resize once the listener is registered, a loader
    callback while the load is under way. *)
Definition enabled (e : Event) (s : Viewer) : bool :=
  match e with
  | Frame _ => Nat.ltb 0 (frameRequests (page s))
  | Resize _ _ => Nat.ltb 0 (resizeListeners (page s))
  | Pointer _ => match controls s with Some _ => true | None => false end
  | LoadProgress _ _ | LoadDone _ | LoadFailed _ => loading (page s)
  end.

Definition deliver (e : Event) : Act :=
  match e with
  | Frame t =>
      assign (fun s =>
        with_page (page_frameRequests (pred (frameRequests (page s)))
                     (page_now t (page s))) s) ;;
      animate
  | Resize w h =>
      assign (fun s =>
        with_page
          (page_window {| innerWidth := w; innerHeight := h;
                          devicePixelRatio :=
                            devicePixelRatio (window (page s)) |}
             (page s)) s) ;;
      onWindowResize
  | Pointer p =>
      on_controls (set_private p)
  | LoadProgress loaded total => onProgress loaded total
  | LoadDone gltf =>
      assign (fun s => with_page (page_loading false (page s)) s) ;;
      onLoad gltf
  | LoadFailed error =>
      assign (fun s => with_page (page_loading false (page s)) s) ;;
      onError error
  end.

(** The states the page can be in: the constructor's result, and what the
    handlers leave after each event. *)
Inductive reachable : Viewer -> Prop :=
| reach_new found w t s :
    constructor found w t = Normal s -> reachable s
| reach_event s e :
    reachable s -> enabled e s = true ->
    reachable (state_of (deliver e s)).

(** ** Sample page, asset and controllers *)

Definition sample_window : Window :=
  {| innerWidth := 800; innerHeight := 600; devicePixelRatio := 2 |}.

Definition sample_container : Container := {| children := [] |}.

(** A unit cube standing on the origin of its own frame. *)
Definition cube : Object3D :=
  {| obj_position := vec3 0 0 0; obj_scale := vec3 1 1 1;
     obj_points := [vec3 0 0 0; vec3 1 1 1] |}.

Definition walk : AnimationClip :=
  {| clip_name := "walk"; clip_duration := 2 |}.

Definition still_asset : GLTF :=
  {| gltf_scene := cube; animations := Some [] |}.

Definition walking_asset : GLTF :=
  {| gltf_scene := cube; animations := Some [walk] |}.

(** A controller fresh from its constructor; [init] overwrites every
    setting listed here. *)
Definition sample_new (cam : Camera) : OrbitControls unit * Camera :=
  ({| enableDamping := false; dampingFactor := 0.05;
      screenSpacePanning := true; minDistance := 0; maxDistance := 1000;
      autoRotate := false; autoRotateSpeed := 2; enableZoom := true;
      enablePan := true; target := vec3 0 0 0; orbit_private := tt |},
   cam).

(** A controller at rest: [update()] leaves the camera where it is. *)
Definition resting_update (c : OrbitControls unit) (cam : Camera)
  : OrbitControls unit * Camera := (c, cam).

(** An orbiting controller: each [update()] turns the camera about the
    vertical axis through the target, by the angle whose cosine is 4/5
    and whose sine is 3/5. *)
Definition orbiting_update (c : OrbitControls unit) (cam : Camera)
  : OrbitControls unit * Camera :=
  let ox := x (cam_position cam) - x (target c) in
  let oz := z (cam_position cam) - z (target c) in
  (c, camera_set_position
        (vec3 (x (target c) + (ox * 0.8 + oz * 0.6))
              (y (cam_position cam))
              (z (target c) + (oz * 0.8 - ox * 0.6)))
        cam).

(** ** Vocabulary of the statements *)

(** The model as the callback places it before measuring it (lines 86-87),
    the box it measures (line 98), and the model after re-centring
    (lines 103-104). *)
Definition placed (gltf : GLTF) : Object3D :=
  set_position (vec3 0 (-0.5) 0)
    (set_scale (vec3 1.2 1.2 1.2) (gltf_scene gltf)).

Definition measured (gltf : GLTF) : Box3 := setFromObject (placed gltf).

Definition centred (gltf : GLTF) : Object3D :=
  set_position (vec3 (0 - x (getCenter (measured gltf)))
                     (-0.5)
                     (0 - z (getCenter (measured gltf))))
               (placed gltf).

(** The camera distance of lines 107-112 for a camera of field of view
    [fov0] (in degrees). *)
Definition framing_distance (gltf : GLTF) (fov0 : R) : R :=
  let size := getSize (measured gltf) in
  let maxDim := Rmax (Rmax (x size) (y size)) (z size) in
  Rabs (maxDim / sin (fov0 * (PI / 180) / 2)) * 0.8.

(** The calls of the completion callback before its closing
    [controls.update()]. *)
Definition framing_calls (gltf : GLTF) (r : nat) : list Call :=
  [CallSceneAdd (SceneObject r)]
  ++ match animations gltf with
     | Some (clip :: _) => [CallClipActionPlay clip]
     | _ => []
     end
  ++ [CallUpdateProjectionMatrix].

(** The five lights of [setupLights], in the order they are added. *)
Definition lights : list SceneChild :=
  [SceneLight ambientLight; SceneLight frontLight; SceneLight backLight;
   SceneLight rightLight; SceneLight leftLight].

Definition minus (p d : Vector3) : Vector3 :=
  vec3 (x p - x d) (y p - y d) (z p - z d).

(** [shift d b]: the box [b] moved by [- d]. *)
Definition shift (d : Vector3) (b : Box3) : Box3 :=
  match b with
  | None => None
  | Some bb => Some {| box_min := minus (box_min bb) d;
                       box_max := minus (box_max bb) d |}
  end.

(** The calls of one frame. *)
Definition frame_calls (s s' : Viewer) : list Call :=
  [CallRequestAnimationFrame; CallControlsUpdate]
  ++ match mixer s with
     | Some _ => [CallGetDelta;
                  CallMixerUpdate (fst (getDelta (now (page s)) (clock s)))]
     | None => []
     end
  ++ [CallRender (scene s') (camera s')].

(** What holds of every state the page can be in. *)
Record invariant (s : Viewer) : Prop := {
  inv_controls : exists c, controls s = Some c;
  inv_frames   : (1 <= frameRequests (page s))%nat;
  inv_listener : resizeListeners (page s) = 1%nat;
  inv_loading  : loading (page s) = true ->
                 model s = None /\ mixer s = None /\ scene s = lights
}.

(** The completion callback, up to its last statement, on a viewer whose
    controller exists. *)
Record framed (gltf : GLTF) (c : OrbitControls P) (s s1 : Viewer) : Prop := {
  framed_container : container s1 = container s;
  framed_scene : scene s1 = scene s ++ [SceneObject (List.length (objects s))];
  framed_camera :
    camera s1 =
    updateProjectionMatrix
      (camera_set_position
         (vec3 (x (cam_position (camera s))) (y (cam_position (camera s)))
               (framing_distance gltf (fov (camera s))))
         (camera s));
  framed_renderer : renderer s1 = renderer s;
  framed_controls :
    controls s1 =
    Some (set_target (vec3 0 (y (getCenter (measured gltf)) * 0.8) 0) c);
  framed_model : model s1 = Some (List.length (objects s));
  framed_mixer :
    mixer s1 =
    match animations gltf with
    | Some (clip :: _) =>
        Some (playClip clip (newAnimationMixer (List.length (objects s))))
    | _ => mixer s
    end;
  framed_clock : clock s1 = clock s;
  framed_objects : objects s1 = objects s ++ [centred gltf];
  framed_calls :
    calls (page s1) =
    calls (page s) ++ framing_calls gltf (List.length (objects s));
  framed_window : window (page s1) = window (page s);
  framed_now : now (page s1) = now (page s);
  framed_listeners : resizeListeners (page s1) = resizeListeners (page s);
  framed_loading : loading (page s1) = loading (page s);
  framed_frames : frameRequests (page s1) = frameRequests (page s)
}.

(** One run of the per-frame callback on a viewer whose controller is [c]. *)
Record animated (c : OrbitControls P) (s s' : Viewer) : Prop := {
  animated_container : container s' = container s;
  animated_scene : scene s' = scene s;
  animated_camera : camera s' = snd (orbit_update c (camera s));
  animated_renderer : renderer s' = renderer s;
  animated_controls : controls s' = Some (fst (orbit_update c (camera s)));
  animated_model : model s' = model s;
  animated_mixer :
    mixer s' =
    match mixer s with
    | Some m => Some (mixer_update (fst (getDelta (now (page s)) (clock s))) m)
    | None => None
    end;
  animated_clock :
    clock s' =
    match mixer s with
    | Some _ => snd (getDelta (now (page s)) (clock s))
    | None => clock s
    end;
  animated_objects : objects s' = objects s;
  animated_calls : calls (page s') = calls (page s) ++ frame_calls s s';
  animated_window : window (page s') = window (page s);
  animated_now : now (page s') = now (page s);
  animated_listeners : resizeListeners (page s') = resizeListeners (page s);
  animated_loading : loading (page s') = loading (page s);
  animated_frames : frameRequests (page s') = S (frameRequests (page s))
}.

Definition is_render (c : Call) : bool :=
  match c with CallRender _ _ => true | _ => false end.

(** How many render calls a log holds. *)
Definition renders (l : list Call) : nat := List.length (filter is_render l).

(** The state in which the browser enters the frame callback at time [t]. *)
Definition frame_start (t : R) (s : Viewer) : Viewer :=
  with_page (page_frameRequests (pred (frameRequests (page s)))
               (page_now t (page s))) s.

(** The state in which the loader enters one of its final callbacks. *)
Definition load_end (s : Viewer) : Viewer :=
  with_page (page_loading false (page s)) s.

(** The sample page right after [new ModelViewer(...)], and after the
    loader has delivered an asset to it. *)
Definition started : Viewer :=
  state_of (constructor (Some sample_container) sample_window 0).

Definition loaded (gltf : GLTF) : Viewer :=
  state_of (deliver (LoadDone gltf) started).

(** A run of the page: the events are delivered one after the other. *)
Fixpoint run (es : list Event) (s : Viewer) : Viewer :=
  match es with
  | [] => s
  | e :: es' => run es' (state_of (deliver e s))
  end.

(** Every event of the run can occur when its turn comes. *)
Fixpoint admissible (es : list Event) (s : Viewer) : bool :=
  match es with
  | [] => true
  | e :: es' => enabled e s && admissible es' (state_of (deliver e s))
  end.

Definition is_frame (e : Event) : bool :=
  match e with Frame _ => true | _ => false end.

(** How many frames a run holds. *)
Definition frames (es : list Event) : nat := List.length (filter is_frame es).

(** ** Vocabulary of the further properties *)

Definition count (p : Call -> bool) (l : list Call) : nat :=
  List.length (filter p l).

Definition is_load (c : Call) : bool :=
  match c with CallLoaderLoad _ => true | _ => false end.
Definition is_listen (c : Call) : bool :=
  match c with CallAddEventListener _ => true | _ => false end.
Definition is_new_controls (c : Call) : bool :=
  match c with CallNewOrbitControls => true | _ => false end.
Definition is_append (c : Call) : bool :=
  match c with CallAppendChild _ => true | _ => false end.
Definition is_controls_update (c : Call) : bool :=
  match c with CallControlsUpdate => true | _ => false end.
Definition is_scene_add (c : Call) : bool :=
  match c with CallSceneAdd _ => true | _ => false end.

(** 1 once the model is there, 0 before. *)
Definition has_model (s : Viewer) : nat :=
  match model s with Some _ => 1%nat | None => 0%nat end.

(** The mixer and the clock of a viewer that holds the model of [gltf]. *)
Definition animation_in_step (gltf : GLTF) (s : Viewer) : Prop :=
  match animations gltf with
  | Some (clip :: _) =>
      exists m, mixer s = Some m /\ mixer_root m = 0%nat /\
                mixer_playing m = [clip] /\
                mixer_time m = elapsedTime (clock s) /\
                (running (clock s) = false -> clock s = newClock)
  | _ => mixer s = None /\ clock s = newClock
  end.

(** What the load has come to: nothing yet (or a failure), or the one
    model, placed and re-centred, at the first place of the store. *)
Inductive load_state (s : Viewer) : Prop :=
| load_none :
    model s = None -> objects s = [] -> scene s = lights ->
    mixer s = None -> clock s = newClock -> load_state s
| load_model gltf :
    loading (page s) = false ->
    model s = Some 0%nat -> objects s = [centred gltf] ->
    scene s = lights ++ [SceneObject 0] ->
    animation_in_step gltf s -> load_state s.

(** A render call that shows the five lights, and after them at most the
    one model. *)
Definition lit (c : Call) : Prop :=
  match c with
  | CallRender sc _ => sc = lights \/ sc = lights ++ [SceneObject 0]
  | _ => True
  end.

(** What holds of every state the page can be in, beyond [invariant]. *)
Record steady (s : Viewer) : Prop := {
  steady_frames : frameRequests (page s) = 1%nat;
  steady_listeners : resizeListeners (page s) = 1%nat;
  steady_width : width (renderer s) = innerWidth (window (page s));
  steady_height : height (renderer s) = innerHeight (window (page s));
  steady_ratio : pixelRatio (renderer s) = devicePixelRatio (window (page s));
  steady_clear : clearColor (renderer s) = 0%Z /\ clearAlpha (renderer s) = 0;
  steady_style :
    style_position (domElement (renderer s)) = css_text "absolute" /\
    style_top (domElement (renderer s)) = css_text "0" /\
    style_left (domElement (renderer s)) = css_text "0";
  steady_loads : count is_load (calls (page s)) = 1%nat;
  steady_listens : count is_listen (calls (page s)) = 1%nat;
  steady_news : count is_new_controls (calls (page s)) = 1%nat;
  steady_appends : count is_append (calls (page s)) = 1%nat;
  steady_adds :
    count is_scene_add (calls (page s)) = (5 + has_model s)%nat;
  steady_updates :
    count is_controls_update (calls (page s)) =
    (renders (calls (page s)) + has_model s)%nat;
  steady_lit : Forall lit (calls (page s));
  steady_load : load_state s
}.

(** The camera parameters two cameras share when they differ in position
    only. *)
Definition same_lens (a b : Camera) : Prop :=
  fov a = fov b /\ aspect a = aspect b /\ near a = near b /\
  far a = far b /\ projectionMatrix a = projectionMatrix b.

(** A controller that moves the camera and leaves its lens alone. *)
Definition moves_only : Prop :=
  (forall cam, same_lens (snd (orbit_new cam)) cam) /\
  (forall c cam, same_lens (snd (orbit_update c cam)) cam).

(** The camera of the viewer matches the window. *)
Definition lens_in_step (s : Viewer) : Prop :=
  let a := innerWidth (window (page s)) / innerHeight (window (page s)) in
  fov (camera s) = 75 /\ near (camera s) = 0.1 /\ far (camera s) = 1000 /\
  aspect (camera s) = a /\
  projectionMatrix (camera s) =
    {| proj_fov := 75; proj_aspect := a; proj_near := 0.1;
       proj_far := 1000 |}.

(** The settings of [init], whatever the target and the private state. *)
Definition configured (c : OrbitControls P) : Prop :=
  enableDamping c = true /\ dampingFactor c = 0.05 /\
  screenSpacePanning c = false /\ minDistance c = 2 /\ maxDistance c = 10 /\
  autoRotate c = true /\ autoRotateSpeed c = 1.0 /\
  enableZoom c = false /\ enablePan c = false.

(** A controller whose [update()] writes neither its settings nor its
    target. *)
Definition keeps_settings : Prop :=
  forall c cam,
    let c' := fst (orbit_update c cam) in
    enableDamping c' = enableDamping c /\
    dampingFactor c' = dampingFactor c /\
    screenSpacePanning c' = screenSpacePanning c /\
    minDistance c' = minDistance c /\ maxDistance c' = maxDistance c /\
    autoRotate c' = autoRotate c /\ autoRotateSpeed c' = autoRotateSpeed c /\
    enableZoom c' = enableZoom c /\ enablePan c' = enablePan c /\
    target c' = target c.

(** The controller of the viewer is as [init] and the load callback set
    it. *)
Definition controls_in_step (s : Viewer) : Prop :=
  exists c, controls s = Some c /\ configured c /\
    match model s, objects s with
    | None, _ => target c = vec3 0 0.5 0
    | Some _, o :: _ =>
        target c = vec3 0 (0.8 * y (getCenter (setFromObject o)))  0
    | Some _, [] => False
    end.

(** The box of a list of points, scaled by [k] and then moved by [d]. *)
Definition affine (k d : Vector3) (b : Box3) : Box3 :=
  match b with
  | None => None
  | Some bb =>
      Some {| box_min := vec3 (x d + x k * x (box_min bb))
                              (y d + y k * y (box_min bb))
                              (z d + z k * z (box_min bb));
              box_max := vec3 (x d + x k * x (box_max bb))
                              (y d + y k * y (box_max bb))
                              (z d + z k * z (box_max bb)) |}
  end.

(** A box whose minimum is below its maximum on every axis. *)
Definition ordered (b : Box3) : Prop :=
  match b with
  | None => True
  | Some bb => x (box_min bb) <= x (box_max bb) /\
               y (box_min bb) <= y (box_max bb) /\
               z (box_min bb) <= z (box_max bb)
  end.

(** The largest extent of a box (line 107). *)
Definition maxDim (b : Box3) : R :=
  Rmax (Rmax (x (getSize b)) (y (getSize b))) (z (getSize b)).

Definition is_loader_event (e : Event) : bool :=
  match e with
  | LoadProgress _ _ | LoadDone _ | LoadFailed _ => true
  | _ => false
  end.

(** The progress events of a list of (loaded, total) reports. *)
Definition progress (reports : list (R * R)) : list Event :=
  map (fun r => LoadProgress (fst r) (snd r)) reports.

(** The square of the distance between two points: the controller keeps
    the distance from the camera to its target within
    [minDistance, maxDistance]. *)
Definition distance2 (p q : Vector3) : R :=
  (x p - x q) * (x p - x q) + (y p - y q) * (y p - y q)
  + (z p - z q) * (z p - z q).

(** A cube of side 20. *)
Definition big_asset : GLTF :=
  {| gltf_scene := {| obj_position := vec3 0 0 0; obj_scale := vec3 1 1 1;
                      obj_points := [vec3 0 0 0; vec3 20 20 20] |};
     animations := None |}.

(** An asset without geometry. *)
Definition hollow_asset : GLTF :=
  {| gltf_scene := {| obj_position := vec3 3 4 5; obj_scale := vec3 2 2 2;
                      obj_points := [] |};
     animations := None |}.

(** The sample page some way into its life: a frame, the walking asset
    loaded, another frame, a resize, a third frame. *)
Definition played : Viewer :=
  run [Frame 16; LoadDone walking_asset; Frame 33; Resize 1024 768; Frame 50]
      started.

(** The sample page after its load has failed. *)
Definition failed : Viewer :=
  state_of (deliver (LoadFailed "404") started).

(** ** Running the methods *)

Ltac unfold_acts :=
  cbv beta iota zeta delta
    [constructor fields init setupLights loadModel animate onLoad
     onLoad_framing onProgress onError onWindowResize deliver
     update_animations requestAnimationFrame render setupAnimations
     the_model new_controls container_appendChild controls_update
     camera_updateProjectionMatrix renderer_setSize scene_add
     on_controls on_model seq assign reading call skip state_of log
     with_container with_scene with_camera with_renderer with_controls
     with_model with_mixer with_clock with_objects with_page
     page_window page_now page_resizeListeners page_loading
     page_frameRequests page_call fresh_page
     container scene camera renderer controls model mixer clock objects page
     window now resizeListeners loading frameRequests calls].

Lemma nth_error_last (l : list Object3D) (o : Object3D) :
  nth_error (l ++ [o]) (List.length l) = Some o.
Proof.
  induction l as [|h t IH]; simpl; [reflexivity | exact IH].
Qed.

Lemma store_set_last (l : list Object3D) (o o' : Object3D) :
  store_set (List.length l) o' (l ++ [o]) = l ++ [o'].
Proof.
  induction l as [|h t IH]; simpl; [reflexivity | now rewrite IH].
Qed.

Lemma Rmin_shift (a b d : R) : Rmin (a - d) (b - d) = Rmin a b - d.
Proof. unfold Rmin; destruct (Rle_dec a b), (Rle_dec (a - d) (b - d)); lra. Qed.

Lemma Rmax_shift (a b d : R) : Rmax (a - d) (b - d) = Rmax a b - d.
Proof. unfold Rmax; destruct (Rle_dec a b), (Rle_dec (a - d) (b - d)); lra. Qed.

Lemma expandByPoint_shift (d : Vector3) (b : Box3) (p : Vector3) :
  expandByPoint (shift d b) (minus p d) = shift d (expandByPoint b p).
Proof.
  destruct b as [bb|]; simpl; [|reflexivity].
  unfold minus; simpl. now rewrite !Rmin_shift, !Rmax_shift.
Qed.

Lemma fold_expand_shift (d : Vector3) (ps : list Vector3) :
  forall b,
    fold_left expandByPoint (map (fun p => minus p d) ps) (shift d b)
    = shift d (fold_left expandByPoint ps b).
Proof.
  induction ps as [|p ps IH]; intros b; simpl; [reflexivity|].
  rewrite expandByPoint_shift. apply IH.
Qed.

(** Moving an object moves its bounding box with it. *)
Lemma setFromObject_moved (o : Object3D) (d : Vector3) :
  setFromObject (set_position (minus (obj_position o) d) o)
  = shift d (setFromObject o).
Proof.
  unfold setFromObject, setFromPoints.
  change (@None Bounds) with (shift d None) at 1.
  rewrite <- fold_expand_shift. f_equal.
  simpl. rewrite map_map. apply map_ext; intros p.
  unfold localToWorld, minus; simpl. f_equal; lra.
Qed.

Lemma getCenter_shift (d : Vector3) (b : Box3) :
  b <> None -> getCenter (shift d b) = minus (getCenter b) d.
Proof.
  destruct b as [bb|]; [intros _ | congruence].
  unfold minus; simpl; f_equal; lra.
Qed.

(** The re-centred model's box is the measured box moved by the measured
    centre's x and z. *)
Lemma centred_box (gltf : GLTF) :
  setFromObject (centred gltf)
  = shift (vec3 (x (getCenter (measured gltf))) 0
                (z (getCenter (measured gltf))))
          (measured gltf).
Proof.
  unfold measured at 3. rewrite <- setFromObject_moved.
  unfold centred, placed, set_position, set_scale, minus; simpl.
  unfold setFromObject; simpl. f_equal. apply map_ext; intros p.
  unfold localToWorld; simpl. f_equal; lra.
Qed.

Lemma controls_update_runs s c :
  controls s = Some c ->
  controls_update s =
  Normal (log CallControlsUpdate
            (with_camera (snd (orbit_update c (camera s)))
               (with_controls (Some (fst (orbit_update c (camera s)))) s))).
Proof.
  intros H. unfold controls_update. now rewrite H.
Qed.

Lemma onLoad_framing_runs gltf s c :
  controls s = Some c ->
  exists s1, onLoad_framing gltf s = Normal s1 /\ framed gltf c s s1.
Proof.
  destruct s as [ct sc cam rd ctl md mx ck ob pg]; simpl; intros ->.
  unfold_acts.
  rewrite nth_error_last, store_set_last.
  rewrite nth_error_last, store_set_last.
  unfold setupAnimations; unfold_acts.
  destruct (animations gltf) as [[|clip rest]|] eqn:Han;
    rewrite ?nth_error_last, ?store_set_last;
    rewrite ?nth_error_last, ?store_set_last;
    (eexists; split; [reflexivity|]);
    (split; simpl; rewrite ?Han; try reflexivity;
     unfold framing_calls; rewrite ?Han, <- ?app_assoc; reflexivity).
Qed.

Lemma animate_runs s c :
  controls s = Some c ->
  exists s', animate s = Normal s' /\ animated c s s'.
Proof.
  destruct s as [ct sc cam rd ctl md mx ck ob [wn t rl ld fr cl]];
    simpl; intros ->.
  unfold_acts.
  destruct mx as [m|]; (eexists; split; [reflexivity|]);
    split; try reflexivity;
    unfold frame_calls; simpl; rewrite <- !app_assoc; reflexivity.
Qed.

Lemma onLoad_runs gltf s c :
  controls s = Some c ->
  exists s1,
    onLoad_framing gltf s = Normal s1 /\ framed gltf c s s1 /\
    onLoad gltf s = controls_update s1 /\
    controls_update s1 =
    Normal (log CallControlsUpdate
              (with_camera
                 (snd (orbit_update
                         (set_target
                            (vec3 0 (y (getCenter (measured gltf)) * 0.8) 0) c)
                         (camera s1)))
                 (with_controls
                    (Some (fst (orbit_update
                                  (set_target
                                     (vec3 0 (y (getCenter (measured gltf)) * 0.8) 0)
                                     c)
                                  (camera s1))))
                    s1))).
Proof.
  intros Hc. destruct (onLoad_framing_runs gltf s c Hc) as [s1 [Hrun Hpost]].
  exists s1. split; [exact Hrun|]. split; [exact Hpost|]. split.
  - unfold onLoad. unfold seq at 1. now rewrite Hrun.
  - apply controls_update_runs. apply (framed_controls _ _ _ _ Hpost).
Qed.

Lemma constructor_without_container w t :
  exists e s, constructor None w t = Thrown e s.
Proof. unfold_acts. eexists; eexists; reflexivity. Qed.

Lemma constructor_invariant found w t s :
  constructor found w t = Normal s -> invariant s.
Proof.
  destruct found as [c|].
  - unfold_acts.
    intros H; injection H as <-.
    split; simpl; try reflexivity; try lia.
    + eexists; reflexivity.
    + intros _. repeat split.
  - destruct (constructor_without_container w t) as [e [s' H]].
    rewrite H; discriminate.
Qed.

Lemma deliver_invariant s e :
  invariant s -> enabled e s = true -> invariant (state_of (deliver e s)).
Proof.
  intros [[c Hc] Hfr Hls Hld] Hen.
  destruct e as [t | w h | p | loaded total | gltf | err].
  - (* Frame *)
    unfold deliver, seq, assign.
    match goal with |- context [animate ?s0] =>
      destruct (animate_runs s0 c Hc) as [s' [Hrun Hpost]] end.
    rewrite Hrun; simpl.
    destruct Hpost; split.
    + eauto.
    + rewrite animated_frames0; simpl; lia.
    + rewrite animated_listeners0; simpl; exact Hls.
    + rewrite animated_loading0, animated_model0, animated_mixer0,
        animated_scene0; simpl.
      intros Hl. destruct (Hld Hl) as [Hm [Hx Hs]]. now rewrite Hx.
  - (* Resize *)
    destruct s as [ct sc cam rd ctl md mx ck ob [wn t rl ld fr cl]].
    simpl in *. split; simpl; eauto.
  - (* Pointer *)
    destruct s as [ct sc cam rd ctl md mx ck ob [wn t rl ld fr cl]].
    simpl in *. subst ctl. split; simpl; eauto.
  - (* LoadProgress *)
    destruct s as [ct sc cam rd ctl md mx ck ob [wn t rl ld fr cl]].
    simpl in *. split; simpl; eauto.
  - (* LoadDone *)
    unfold deliver, seq, assign.
    match goal with |- context [onLoad gltf ?s0] =>
      destruct (onLoad_runs gltf s0 c Hc) as [s1 [_ [Hpost [-> ->]]]] end.
    destruct Hpost; split; simpl.
    + eauto.
    + rewrite framed_frames0; exact Hfr.
    + rewrite framed_listeners0; exact Hls.
    + rewrite framed_loading0; simpl; discriminate.
  - (* LoadFailed *)
    destruct s as [ct sc cam rd ctl md mx ck ob [wn t rl ld fr cl]].
    simpl in *. split; simpl; eauto; discriminate.
Qed.

Lemma reachable_invariant s : reachable s -> invariant s.
Proof.
  induction 1 as [found w t s Hnew | s e _ IH Hen].
  - eapply constructor_invariant; eassumption.
  - now apply deliver_invariant.
Qed.

(** On a reachable state every event's handler runs to completion. *)
Lemma deliver_completes s e :
  reachable s -> enabled e s = true ->
  deliver e s = Normal (state_of (deliver e s)).
Proof.
  intros Hr Hen. destruct (reachable_invariant s Hr) as [[c Hc] _ _ _].
  destruct e as [t | w h | p | loaded total | gltf | err];
    try reflexivity.
  - unfold deliver, seq, assign.
    match goal with |- context [animate ?s0] =>
      destruct (animate_runs s0 c Hc) as [s' [Hrun _]] end.
    now rewrite Hrun.
  - unfold deliver, on_controls. now rewrite Hc.
  - unfold deliver, seq, assign.
    match goal with |- context [onLoad gltf ?s0] =>
      destruct (onLoad_runs gltf s0 c Hc) as [s1 [_ [_ [-> ->]]]] end.
    reflexivity.
Qed.

(** ** The load callbacks *)

Lemma started_reachable : reachable started.
Proof.
  apply (reach_new (Some sample_container) sample_window 0).
  unfold started. unfold_acts. reflexivity.
Qed.

Lemma started_loading : loading (page started) = true.
Proof. reflexivity. Qed.

Lemma deliver_LoadDone gltf s :
  deliver (LoadDone gltf) s = onLoad gltf (load_end s).
Proof. reflexivity. Qed.

Lemma deliver_Frame t s :
  deliver (Frame t) s = animate (frame_start t s).
Proof. reflexivity. Qed.

(** What the completion callback leaves, on a reachable state. *)
Lemma load_done gltf s :
  reachable s ->
  exists c s1 s',
    controls s = Some c /\
    onLoad_framing gltf (load_end s) = Normal s1 /\
    framed gltf c (load_end s) s1 /\
    deliver (LoadDone gltf) s = controls_update s1 /\
    controls_update s1 = Normal s' /\
    model s' = model s1 /\ objects s' = objects s1 /\
    mixer s' = mixer s1 /\
    calls (page s') = calls (page s1) ++ [CallControlsUpdate].
Proof.
  intros Hr. destruct (reachable_invariant s Hr) as [[c Hc] _ _ _].
  destruct (onLoad_runs gltf (load_end s) c Hc)
    as [s1 [Hrun [Hpost [Hseq Hup]]]].
  exists c, s1. eexists.
  split; [exact Hc|]. split; [exact Hrun|]. split; [exact Hpost|].
  split; [rewrite deliver_LoadDone; exact Hseq|].
  split; [exact Hup|]. repeat split.
Qed.

(** C1, as the code has it.  On a successful load the completion callback
    subtracts the x and z components of the measured bounding-box centre
    from the model's position and leaves the y component at -0.5: after
    the callback the model's bounding box is centred on the origin along
    the x and z axes. *)
Theorem onLoad_centres_x_and_z gltf s :
  reachable s -> loading (page s) = true ->
  exists s' r o,
    deliver (LoadDone gltf) s = Normal s' /\
    model s' = Some r /\ nth_error (objects s') r = Some o /\
    obj_position o = vec3 (0 - x (getCenter (measured gltf)))
                          (-0.5)
                          (0 - z (getCenter (measured gltf))) /\
    x (getCenter (setFromObject o)) = 0 /\
    z (getCenter (setFromObject o)) = 0.
Proof.
  intros Hr _.
  destruct (load_done gltf s Hr)
    as (c & s1 & s' & _ & _ & Hpost & Hd & Hup & Hm & Ho & _).
  exists s', (List.length (objects s)), (centred gltf).
  split; [now rewrite Hd|].
  split; [rewrite Hm; apply (framed_model _ _ _ _ Hpost)|].
  split.
  { rewrite Ho, (framed_objects _ _ _ _ Hpost). apply nth_error_last. }
  split; [reflexivity|].
  rewrite centred_box.
  destruct (measured gltf) as [bb|] eqn:Hb; simpl; split; lra.
Qed.

(** C2.  On a successful load the completion callback sets the camera's z
    position to 0.8 * |maxDim / sin(fov / 2)|, with [maxDim] the largest
    extent of the measured bounding box and [fov] the camera's field of
    view in radians, and sets the controller's target to
    (0, 0.8 * center.y, 0); the closing [controls.update()] is handed the
    camera and the controller so set. *)
Theorem onLoad_frames_camera gltf s :
  reachable s -> loading (page s) = true ->
  let center := getCenter (measured gltf) in
  let size := getSize (measured gltf) in
  let maxDim := Rmax (Rmax (x size) (y size)) (z size) in
  let fov_rad := fov (camera s) * (PI / 180) in
  exists s1 c1,
    onLoad_framing gltf (load_end s) = Normal s1 /\
    deliver (LoadDone gltf) s = controls_update s1 /\
    z (cam_position (camera s1)) = 0.8 * Rabs (maxDim / sin (fov_rad / 2)) /\
    controls s1 = Some c1 /\
    target c1 = vec3 0 (0.8 * y center) 0.
Proof.
  intros Hr _ center size maxDim fov_rad.
  destruct (load_done gltf s Hr)
    as (c & s1 & s' & _ & Hrun & Hpost & Hd & _).
  exists s1, (set_target (vec3 0 (y center * 0.8) 0) c).
  split; [exact Hrun|]. split; [exact Hd|].
  split.
  { rewrite (framed_camera _ _ _ _ Hpost); simpl.
    unfold framing_distance. apply Rmult_comm. }
  split; [apply (framed_controls _ _ _ _ Hpost)|].
  simpl. f_equal. apply Rmult_comm.
Qed.

(** C10, as the code has it.  The completion callback assigns only the x
    and z components of the model's position and only the z component of
    the camera's position: the model's y position is -0.5 after the
    callback, and the camera handed to the closing [controls.update()]
    has the x and y positions it had when the callback started. *)
Theorem onLoad_assigns_only gltf s :
  reachable s -> loading (page s) = true ->
  exists s1 s' r o,
    onLoad_framing gltf (load_end s) = Normal s1 /\
    deliver (LoadDone gltf) s = controls_update s1 /\
    x (cam_position (camera s1)) = x (cam_position (camera s)) /\
    y (cam_position (camera s1)) = y (cam_position (camera s)) /\
    deliver (LoadDone gltf) s = Normal s' /\
    model s' = Some r /\ nth_error (objects s') r = Some o /\
    obj_position o =
      vec3 (x (obj_position (placed gltf)) - x (getCenter (measured gltf)))
           (y (obj_position (placed gltf)))
           (z (obj_position (placed gltf)) - z (getCenter (measured gltf))) /\
    y (obj_position o) = -0.5.
Proof.
  intros Hr _.
  destruct (load_done gltf s Hr)
    as (c & s1 & s' & _ & Hrun & Hpost & Hd & Hup & Hm & Ho & _).
  exists s1, s', (List.length (objects s)), (centred gltf).
  split; [exact Hrun|]. split; [exact Hd|].
  split; [now rewrite (framed_camera _ _ _ _ Hpost)|].
  split; [now rewrite (framed_camera _ _ _ _ Hpost)|].
  split; [now rewrite Hd|].
  split; [rewrite Hm; apply (framed_model _ _ _ _ Hpost)|].
  split.
  { rewrite Ho, (framed_objects _ _ _ _ Hpost). apply nth_error_last. }
  split; reflexivity.
Qed.


(** C4.  When the asset carries at least one animation clip the completion
    callback creates a mixer rooted at the model and plays the first
    clip, and only that one; otherwise it creates no mixer (the mixer
    stays null) and plays nothing. *)
Theorem onLoad_plays_first_clip gltf s :
  reachable s -> loading (page s) = true ->
  exists s' r,
    deliver (LoadDone gltf) s = Normal s' /\
    model s' = Some r /\
    match animations gltf with
    | Some (clip :: _) =>
        mixer s' = Some {| mixer_root := r; mixer_time := 0;
                           mixer_playing := [clip] |} /\
        calls (page s') =
        calls (page s) ++ [CallSceneAdd (SceneObject r);
                           CallClipActionPlay clip;
                           CallUpdateProjectionMatrix;
                           CallControlsUpdate]
    | _ =>
        mixer s' = None /\
        calls (page s') =
        calls (page s) ++ [CallSceneAdd (SceneObject r);
                           CallUpdateProjectionMatrix;
                           CallControlsUpdate]
    end.
Proof.
  intros Hr Hl.
  destruct (reachable_invariant s Hr) as [_ _ _ Hinv].
  destruct (Hinv Hl) as (_ & Hx & _).
  destruct (load_done gltf s Hr)
    as (c & s1 & s' & _ & Hrun & Hpost & Hd & Hup & Hm & Ho & Hmx & Hc).
  exists s', (List.length (objects s)).
  split; [now rewrite Hd|].
  split; [rewrite Hm; apply (framed_model _ _ _ _ Hpost)|].
  rewrite Hmx, Hc, (framed_mixer _ _ _ _ Hpost), (framed_calls _ _ _ _ Hpost).
  unfold framing_calls.
  destruct (animations gltf) as [[|clip rest]|]; simpl;
    rewrite <- ?app_assoc; simpl; (split; [assumption || reflexivity | reflexivity]).
Qed.

(** ** The frame callback *)

Lemma renders_app (l l' : list Call) :
  renders (l ++ l') = (renders l + renders l')%nat.
Proof. unfold renders. now rewrite filter_app, length_app. Qed.

Lemma renders_frame_calls s s' : renders (frame_calls s s') = 1%nat.
Proof. unfold frame_calls. destruct (mixer s); reflexivity. Qed.

(** C5.  Every run of the frame callback on a viewer whose controller
    exists makes, after asking for the next frame, these calls in this
    order: [controls.update()]; when a mixer exists, [clock.getDelta()]
    and [mixer.update] with that delta, which advances the mixer's time
    by it; and one [renderer.render] of the scene with the camera. *)
Theorem animate_order s c :
  controls s = Some c ->
  exists s',
    animate s = Normal s' /\
    calls (page s') =
      calls (page s)
      ++ [CallRequestAnimationFrame; CallControlsUpdate]
      ++ match mixer s with
         | Some _ =>
             [CallGetDelta;
              CallMixerUpdate (fst (getDelta (now (page s)) (clock s)))]
         | None => []
         end
      ++ [CallRender (scene s') (camera s')] /\
    renders (calls (page s')) = S (renders (calls (page s))) /\
    scene s' = scene s /\
    (controls s', camera s') =
      (Some (fst (orbit_update c (camera s))),
       snd (orbit_update c (camera s))) /\
    match mixer s with
    | Some m =>
        let delta := fst (getDelta (now (page s)) (clock s)) in
        mixer s' = Some (mixer_update delta m) /\
        (forall m', mixer s' = Some m' ->
                    mixer_time m' = mixer_time m + delta) /\
        clock s' = snd (getDelta (now (page s)) (clock s))
    | None => mixer s' = None /\ clock s' = clock s
    end.
Proof.
  intros Hc. destruct (animate_runs s c Hc) as [s' [Hrun Hpost]].
  exists s'. destruct Hpost.
  split; [exact Hrun|]. split; [exact animated_calls0|].
  split.
  { rewrite animated_calls0, renders_app, renders_frame_calls. lia. }
  split; [exact animated_scene0|].
  split; [now rewrite animated_controls0, animated_camera0|].
  rewrite animated_mixer0, animated_clock0.
  destruct (mixer s) as [m|]; [|split; reflexivity].
  split; [reflexivity|]. split; [|reflexivity].
  intros m' Hm'. injection Hm' as <-. reflexivity.
Qed.

Lemma renders_framing_calls gltf r : renders (framing_calls gltf r) = 0%nat.
Proof.
  unfold framing_calls. destruct (animations gltf) as [[|clip rest]|];
    reflexivity.
Qed.

(** Only a frame adds a render call, and every frame adds one. *)
Lemma deliver_renders s e :
  reachable s -> enabled e s = true ->
  renders (calls (page (state_of (deliver e s)))) =
  (renders (calls (page s)) + (if is_frame e then 1 else 0))%nat.
Proof.
  intros Hr Hen.
  destruct (reachable_invariant s Hr) as [[c Hc] _ _ _].
  destruct e as [t | w h | p | loaded total | gltf | err].
  - assert (Hc0 : controls (frame_start t s) = Some c) by exact Hc.
    destruct (animate_runs _ c Hc0) as [s' [Hrun Hpost]].
    rewrite deliver_Frame, Hrun; simpl.
    now rewrite (animated_calls _ _ _ Hpost), renders_app,
      renders_frame_calls.
  - destruct s as [ct sc cam rd ctl md mx ck ob [wn t rl ld fr cl]].
    simpl. unfold renders. rewrite !filter_app, !length_app. simpl. lia.
  - unfold deliver, on_controls. rewrite Hc. simpl. lia.
  - destruct s as [ct sc cam rd ctl md mx ck ob [wn t rl ld fr cl]].
    simpl. unfold renders. rewrite !filter_app, !length_app. simpl. lia.
  - destruct (load_done gltf s Hr)
      as (c' & s1 & s' & _ & _ & Hpost & Hd & Hup & _ & _ & _ & Hcalls).
    rewrite Hd, Hup; simpl.
    rewrite Hcalls, (framed_calls _ _ _ _ Hpost), !renders_app,
      renders_framing_calls.
    unfold renders; simpl. lia.
  - destruct s as [ct sc cam rd ctl md mx ck ob [wn t rl ld fr cl]].
    simpl. unfold renders. rewrite !filter_app, !length_app. simpl. lia.
Qed.

Lemma run_renders es :
  forall s,
    reachable s -> admissible es s = true ->
    reachable (run es s) /\
    renders (calls (page (run es s))) =
    (renders (calls (page s)) + frames es)%nat.
Proof.
  induction es as [|e es IH]; intros s Hr Had; simpl in *.
  - split; [exact Hr | unfold frames; simpl; lia].
  - apply andb_prop in Had. destruct Had as [Hen Had].
    destruct (IH (state_of (deliver e s))) as [Hr' Hn];
      [now apply reach_event | exact Had |].
    split; [exact Hr'|].
    rewrite Hn, (deliver_renders s e Hr Hen).
    unfold frames; simpl. destruct (is_frame e); simpl; lia.
Qed.

(** C8.  The frame loop never stops and every frame renders.  The
    callback asks for the next frame before anything else, also when the
    rest of it fails; on every reachable state, whatever the load has come
    to, a frame can be delivered, its callback runs to completion, its
    last call is a render, and the state it leaves is again one with a
    frame requested; and over any run of the page, with the loader's
    callbacks, resizes and pointer input falling where they may, there are
    as many new render calls as there are frames. *)
Theorem frame_loop_renders s t :
  reachable s ->
  (forall es,
      admissible es s = true ->
      renders (calls (page (run es s))) =
        (renders (calls (page s)) + frames es)%nat /\
      forall t', enabled (Frame t') (run es s) = true) /\
  (forall s0, exists rest,
      calls (page (state_of (animate s0))) =
        calls (page s0) ++ CallRequestAnimationFrame :: rest /\
      frameRequests (page (state_of (animate s0))) =
        S (frameRequests (page s0))) /\
  enabled (Frame t) s = true /\
  exists s' work,
    deliver (Frame t) s = Normal s' /\
    calls (page s') =
      calls (page s) ++ CallRequestAnimationFrame :: work
                     ++ [CallRender (scene s') (camera s')] /\
    renders (calls (page s')) = S (renders (calls (page s))) /\
    reachable s' /\
    forall t', enabled (Frame t') s' = true.
Proof.
  intros Hr. split.
  { intros es Had. destruct (run_renders es s Hr Had) as [Hr' Hn].
    split; [exact Hn|]. intros t'.
    destruct (reachable_invariant _ Hr') as [_ Hfr' _ _].
    simpl. apply Nat.ltb_lt. lia. }
  split.
  { intros [ct sc cam rd [c0|] md mx ck ob [wn t0 rl ld fr cl]].
    - unfold_acts.
      destruct mx as [m|];
        eexists; simpl; rewrite <- ?app_assoc; simpl; split; reflexivity.
    - unfold_acts. exists []. split; reflexivity. }
  destruct (reachable_invariant s Hr) as [[c Hc] Hfr _ _].
  assert (Hen : enabled (Frame t) s = true).
  { simpl. apply Nat.ltb_lt. lia. }
  split; [exact Hen|].
  assert (Hc0 : controls (frame_start t s) = Some c) by exact Hc.
  destruct (animate_runs _ c Hc0) as [s' [Hrun Hpost]].
  assert (Hd : deliver (Frame t) s = Normal s').
  { rewrite deliver_Frame; exact Hrun. }
  assert (Hr' : reachable s').
  { replace s' with (state_of (deliver (Frame t) s)) by now rewrite Hd.
    now apply reach_event. }
  exists s'.
  exists (match mixer s with
          | Some _ => [CallControlsUpdate; CallGetDelta;
                       CallMixerUpdate (fst (getDelta t (clock s)))]
          | None => [CallControlsUpdate]
          end).
  split; [exact Hd|].
  split.
  { rewrite (animated_calls _ _ _ Hpost). unfold frame_calls. simpl.
    destruct (mixer s); reflexivity. }
  split.
  { rewrite (animated_calls _ _ _ Hpost), renders_app, renders_frame_calls.
    simpl. lia. }
  split; [exact Hr'|].
  intros t'. destruct (reachable_invariant s' Hr') as [_ Hfr' _ _].
  simpl. apply Nat.ltb_lt. lia.
Qed.

(** C9.  The frame callback reaches [mixer.update] only through the null
    check: while the load is under way the mixer is null; while the mixer
    is null a frame updates the controller and renders, and neither reads
    the clock nor touches a mixer; and the mixer is still null after a
    failed load and after the load of an asset without animation clips. *)
Theorem animate_guards_mixer s t :
  reachable s ->
  (loading (page s) = true -> mixer s = None) /\
  (mixer s = None ->
   exists s',
     deliver (Frame t) s = Normal s' /\
     calls (page s') =
       calls (page s) ++ [CallRequestAnimationFrame; CallControlsUpdate;
                          CallRender (scene s') (camera s')] /\
     clock s' = clock s /\ mixer s' = None) /\
  (forall error,
     loading (page s) = true ->
     mixer (state_of (deliver (LoadFailed error) s)) = None) /\
  (forall gltf,
     loading (page s) = true ->
     animations gltf = None \/ animations gltf = Some [] ->
     mixer (state_of (deliver (LoadDone gltf) s)) = None).
Proof.
  intros Hr.
  destruct (reachable_invariant s Hr) as [[c Hc] _ _ Hinv].
  split; [intros Hl; apply (Hinv Hl)|].
  split.
  { intros Hm.
    assert (Hc0 : controls (frame_start t s) = Some c) by exact Hc.
    destruct (animate_runs _ c Hc0) as [s' [Hrun Hpost]].
    exists s'. split; [rewrite deliver_Frame; exact Hrun|].
    destruct Hpost. unfold frame_calls in animated_calls0.
    simpl in *. rewrite Hm in *. simpl in *. repeat split; assumption. }
  split.
  { intros error Hl. destruct (Hinv Hl) as (_ & Hx & _). exact Hx. }
  intros gltf Hl Hno. destruct (Hinv Hl) as (_ & Hx & _).
  destruct (load_done gltf s Hr)
    as (c' & s1 & s' & _ & _ & Hpost & Hd & Hup & _ & _ & Hmx & _).
  rewrite Hd, Hup; simpl. rewrite Hmx, (framed_mixer _ _ _ _ Hpost).
  destruct Hno as [-> | ->]; exact Hx.
Qed.

(** ** The constructor and the resize handler *)

(** C6.  Given the container element, the constructor runs [init], then
    [setupLights], then [loadModel], then [animate], each once and each to
    completion: the renderer is sized, the camera placed at (0, 1.5, 4),
    the controller created and given the settings and the target of
    lines 40-49, and the resize listener registered; then the five lights
    are added; then the load of the model file is started; then the first
    frame runs, on the controller and the camera [init] left. *)
Theorem constructor_order c w t :
  let cam0 := camera_set_position (vec3 0 1.5 4)
                (PerspectiveCamera 75 (innerWidth w / innerHeight w) 0.1 1000) in
  let settings :=
    {| enableDamping := true;
       dampingFactor := 0.05;
       screenSpacePanning := false;
       minDistance := 2;
       maxDistance := 10;
       autoRotate := true;
       autoRotateSpeed := 1.0;
       enableZoom := false;
       enablePan := false;
       target := vec3 0 0.5 0;
       orbit_private := orbit_private (fst (orbit_new cam0)) |} in
  let style :=
    {| style_width := css_text "100%"; style_height := css_text "100%";
       style_position := css_text "absolute";
       style_top := css_text "0"; style_left := css_text "0" |} in
  let five :=
    [SceneLight {| light_kind := AmbientLight; light_color := 0xffffff;
                   light_intensity := 0.6; light_position := vec3 0 0 0 |};
     SceneLight {| light_kind := DirectionalLight; light_color := 0xffffff;
                   light_intensity := 1.2; light_position := vec3 0 2 4 |};
     SceneLight {| light_kind := DirectionalLight; light_color := 0xffffff;
                   light_intensity := 0.8;
                   light_position := vec3 0 1 (-2) |};
     SceneLight {| light_kind := DirectionalLight; light_color := 0x00ffff;
                   light_intensity := 0.6; light_position := vec3 2 0 0 |};
     SceneLight {| light_kind := DirectionalLight; light_color := 0xff00ff;
                   light_intensity := 0.6;
                   light_position := vec3 (-2) 0 0 |}] in
  exists s1 s2 s3 s4,
    init (fields (Some c) w t) = Normal s1 /\
    setupLights s1 = Normal s2 /\
    loadModel s2 = Normal s3 /\
    animate s3 = Normal s4 /\
    constructor (Some c) w t = Normal s4 /\
    calls (page s1) =
      [CallSetPixelRatio (devicePixelRatio w);
       CallSetSize (innerWidth w) (innerHeight w);
       CallSetClearColor 0 0;
       CallAppendChild RendererCanvas;
       CallNewOrbitControls;
       CallAddEventListener "resize"] /\
    calls (page s2) = calls (page s1) ++ map CallSceneAdd lights /\
    calls (page s2) = calls (page s1) ++ map CallSceneAdd five /\
    calls (page s3) = calls (page s2) ++ [CallLoaderLoad model_url] /\
    calls (page s3) =
      calls (page s2) ++ [CallLoaderLoad "./robot_playground.glb"] /\
    calls (page s4) =
      calls (page s3) ++ [CallRequestAnimationFrame; CallControlsUpdate;
                          CallRender (scene s4) (camera s4)] /\
    renderer s1 =
      {| pixelRatio := devicePixelRatio w;
         width := innerWidth w; height := innerHeight w;
         clearColor := 0; clearAlpha := 0;
         domElement := canvas_style |} /\
    domElement (renderer s1) = style /\
    container s1 = Some {| children := children c ++ [RendererCanvas] |} /\
    cam_position cam0 = vec3 0 1.5 4 /\
    camera s1 = snd (orbit_new cam0) /\
    controls s1 = Some (configure (fst (orbit_new cam0))) /\
    controls s1 = Some settings /\
    resizeListeners (page s1) = 1%nat /\
    scene s1 = [] /\ scene s2 = lights /\ scene s2 = five /\
    loading (page s2) = false /\ loading (page s3) = true /\
    frameRequests (page s3) = 0%nat /\ frameRequests (page s4) = 1%nat /\
    controls s3 = Some settings /\ camera s3 = camera s1 /\
    renderer s4 = renderer s1 /\
    controls s4 = Some (fst (orbit_update settings (camera s1))) /\
    camera s4 = snd (orbit_update settings (camera s1)) /\
    resizeListeners (page s4) = 1%nat /\ loading (page s4) = true /\
    scene s4 = lights /\ scene s4 = five /\
    model s4 = None /\ mixer s4 = None.
Proof.
  intros cam0 settings style five. do 4 eexists.
  do 5 (split; [unfold_acts; reflexivity|]).
  unfold_acts. repeat (split; [reflexivity|]). reflexivity.
Qed.

(** C7.  On a resize event the handler sets the camera's aspect to the
    window's inner width over its inner height, recomputes the projection
    matrix, and sets the renderer's size to the window's inner size; the
    camera's position and other parameters, the controller, the scene and
    every other field of the viewer are as they were. *)
Theorem onWindowResize_frame s w h :
  exists s',
    deliver (Resize w h) s = Normal s' /\
    aspect (camera s') = w / h /\
    projectionMatrix (camera s') =
      {| proj_fov := fov (camera s); proj_aspect := w / h;
         proj_near := near (camera s); proj_far := far (camera s) |} /\
    cam_position (camera s') = cam_position (camera s) /\
    fov (camera s') = fov (camera s) /\
    near (camera s') = near (camera s) /\
    far (camera s') = far (camera s) /\
    renderer s' = setSize w h (renderer s) /\
    width (renderer s') = w /\ height (renderer s') = h /\
    pixelRatio (renderer s') = pixelRatio (renderer s) /\
    controls s' = controls s /\ scene s' = scene s /\
    model s' = model s /\ mixer s' = mixer s /\ clock s' = clock s /\
    objects s' = objects s /\ container s' = container s /\
    calls (page s') =
      calls (page s) ++ [CallUpdateProjectionMatrix; CallSetSize w h] /\
    resizeListeners (page s') = resizeListeners (page s) /\
    loading (page s') = loading (page s) /\
    frameRequests (page s') = frameRequests (page s) /\
    now (page s') = now (page s).
Proof.
  destruct s as [ct sc cam rd ctl md mx ck ob [wn t rl ld fr cl]].
  eexists. split; [reflexivity|].
  simpl. rewrite <- app_assoc. repeat split.
Qed.

(** ** What every state of the page keeps *)

Lemma count_app p (l l' : list Call) :
  count p (l ++ l') = (count p l + count p l')%nat.
Proof. unfold count. now rewrite filter_app, length_app. Qed.

Lemma count_one p (c : Call) :
  count p [c] = (if p c then 1 else 0)%nat.
Proof. unfold count; simpl. destruct (p c); reflexivity. Qed.

Lemma renders_count l : renders l = count is_render l.
Proof. reflexivity. Qed.

Lemma count_frame_calls p s s' :
  p CallRequestAnimationFrame = false -> p CallGetDelta = false ->
  (forall d, p (CallMixerUpdate d) = false) ->
  count p (frame_calls s s') =
  ((if p CallControlsUpdate then 1 else 0)
   + (if p (CallRender (scene s') (camera s')) then 1 else 0))%nat.
Proof.
  intros H1 H2 H3. unfold frame_calls, count.
  destruct (mixer s); simpl; rewrite H1, ?H2, ?H3;
    destruct (p CallControlsUpdate), (p (CallRender _ _)); reflexivity.
Qed.

Lemma count_framing_calls p gltf r :
  (forall c, p (CallClipActionPlay c) = false) ->
  p CallUpdateProjectionMatrix = false ->
  count p (framing_calls gltf r) =
  (if p (CallSceneAdd (SceneObject r)) then 1 else 0)%nat.
Proof.
  intros H1 H2. unfold framing_calls, count.
  destruct (animations gltf) as [[|clip rest]|]; simpl;
    rewrite ?H1, H2; destruct (p (CallSceneAdd _)); reflexivity.
Qed.

Lemma lit_frame_calls s s' :
  scene s' = lights \/ scene s' = lights ++ [SceneObject 0] ->
  Forall lit (frame_calls s s').
Proof.
  intros H. unfold frame_calls.
  destruct (mixer s); simpl;
    repeat (apply Forall_cons; [first [exact I | exact H] |]);
    apply Forall_nil.
Qed.

Lemma lit_framing_calls gltf r : Forall lit (framing_calls gltf r).
Proof.
  unfold framing_calls.
  destruct (animations gltf) as [[|clip rest]|]; simpl;
    repeat (apply Forall_cons; [exact I |]); apply Forall_nil.
Qed.

Lemma load_state_scene s :
  load_state s ->
  scene s = lights \/ scene s = lights ++ [SceneObject 0].
Proof. intros [? ? H ? ?|gltf ? ? ? H ?]; [left|right]; exact H. Qed.

(** [load_state] reads the model, the store, the scene, the mixer, the
    clock and the loading flag only. *)
Lemma load_state_ext s s' :
  model s' = model s -> objects s' = objects s -> scene s' = scene s ->
  mixer s' = mixer s -> clock s' = clock s ->
  (loading (page s) = false -> loading (page s') = false) ->
  load_state s -> load_state s'.
Proof.
  intros Hm Ho Hs Hx Hc Hl [H1 H2 H3 H4 H5 | gltf H0 H1 H2 H3 H4].
  - apply load_none; congruence.
  - apply (load_model s' gltf); try congruence; auto.
    unfold animation_in_step in *. rewrite Hx, Hc. exact H4.
Qed.

Lemma getDelta_in_step t ck m :
  mixer_time m = elapsedTime ck ->
  (running ck = false -> ck = newClock) ->
  mixer_time (mixer_update (fst (getDelta t ck)) m)
  = elapsedTime (snd (getDelta t ck)) /\
  running (snd (getDelta t ck)) = true.
Proof.
  intros Ht Hr. unfold getDelta.
  destruct (running ck) eqn:Hrun; simpl.
  - split; [rewrite Ht; reflexivity | reflexivity].
  - rewrite Ht, (Hr eq_refl). simpl. split; [lra | reflexivity].
Qed.

Lemma constructor_steady found w t s :
  constructor found w t = Normal s -> steady s.
Proof.
  destruct found as [c|].
  - unfold_acts. intros H; injection H as <-.
    split; try reflexivity; try (split; reflexivity).
    + split; [reflexivity|]. split; reflexivity.
    + repeat (apply Forall_cons; [first [exact I | left; reflexivity] |]).
      apply Forall_nil.
    + apply load_none; reflexivity.
  - destruct (constructor_without_container w t) as [e [s' H]].
    rewrite H; discriminate.
Qed.

Lemma frame_steady s t :
  invariant s -> steady s -> steady (state_of (deliver (Frame t) s)).
Proof.
  intros [[c Hc] _ _ _] St.
  assert (Hc0 : controls (frame_start t s) = Some c) by exact Hc.
  destruct (animate_runs _ c Hc0) as [s' [Hrun A]].
  rewrite deliver_Frame, Hrun; simpl.
  destruct St, A; simpl in *.
  assert (Hm : has_model s' = has_model s).
  { unfold has_model. now rewrite animated_model0. }
  assert (Hsc : scene s' = lights \/ scene s' = lights ++ [SceneObject 0]).
  { rewrite animated_scene0. now apply load_state_scene. }
  split; rewrite ?animated_renderer0, ?animated_window0,
           ?animated_listeners0, ?animated_frames0, ?animated_calls0,
           ?renders_count, ?count_app, ?Hm; try assumption.
  - rewrite steady_frames0. reflexivity.
  - rewrite count_frame_calls by reflexivity. simpl. lia.
  - rewrite count_frame_calls by reflexivity. simpl. lia.
  - rewrite count_frame_calls by reflexivity. simpl. lia.
  - rewrite count_frame_calls by reflexivity. simpl. lia.
  - rewrite count_frame_calls by reflexivity. simpl. lia.
  - rewrite !count_frame_calls by reflexivity. simpl.
    rewrite renders_count in steady_updates0. lia.
  - apply Forall_app. split; [assumption | now apply lit_frame_calls].
  - destruct steady_load0 as [H1 H2 H3 H4 H5 | gltf H0 H1 H2 H3 H4].
    + apply load_none; try congruence.
      * rewrite animated_mixer0, H4. reflexivity.
      * rewrite animated_clock0, H4. exact H5.
    + apply (load_model s' gltf); try congruence.
      unfold animation_in_step in *.
      rewrite animated_mixer0, animated_clock0.
      destruct (animations gltf) as [[|clip rest]|].
      * destruct H4 as [-> ->]. split; reflexivity.
      * destruct H4 as (m & -> & Hroot & Hplay & Htime & Hstart).
        destruct (getDelta_in_step t (clock s) m Htime Hstart) as [Ht' Hr'].
        eexists. split; [reflexivity|].
        split; [exact Hroot|]. split; [exact Hplay|].
        split; [exact Ht'|]. intros Hno. congruence.
      * destruct H4 as [-> ->]. split; reflexivity.
Qed.

Lemma load_done_steady s gltf :
  invariant s -> loading (page s) = true -> steady s ->
  steady (state_of (deliver (LoadDone gltf) s)).
Proof.
  intros [[c Hc] _ _ Hinv] Hl St.
  destruct (Hinv Hl) as (Hm & Hx & Hs).
  assert (Hc0 : controls (load_end s) = Some c) by exact Hc.
  destruct (onLoad_runs gltf (load_end s) c Hc0)
    as [s1 [_ [F [Hseq Hup]]]].
  rewrite deliver_LoadDone, Hseq, Hup; simpl.
  destruct St, F; simpl in *.
  assert (Ho : objects s = []).
  { destruct steady_load0 as [? H ? ? ?|? H ? ? ? ?]; [exact H|congruence]. }
  assert (Hck : clock s = newClock).
  { destruct steady_load0 as [? ? ? ? H|? H ? ? ? ?]; [exact H|congruence]. }
  rewrite Ho in *; simpl in *.
  assert (H0 : has_model s = 0%nat) by (unfold has_model; now rewrite Hm).
  split; simpl; unfold has_model; simpl;
    rewrite ?framed_renderer0, ?framed_window0, ?framed_listeners0,
      ?framed_frames0, ?framed_calls0, ?framed_model0, ?renders_count,
      ?count_app; try assumption.
  - rewrite count_framing_calls by reflexivity. rewrite ?count_one. simpl. lia.
  - rewrite count_framing_calls by reflexivity. rewrite ?count_one. simpl. lia.
  - rewrite count_framing_calls by reflexivity. rewrite ?count_one. simpl. lia.
  - rewrite count_framing_calls by reflexivity. rewrite ?count_one. simpl. lia.
  - rewrite count_framing_calls by reflexivity. rewrite ?count_one. simpl. lia.
  - rewrite !count_framing_calls by reflexivity. rewrite ?count_one. simpl.
    rewrite renders_count in steady_updates0. lia.
  - apply Forall_app. split.
    + apply Forall_app. split; [assumption | apply lit_framing_calls].
    + repeat constructor.
  - apply (load_model _ gltf); simpl.
    + exact framed_loading0.
    + exact framed_model0.
    + exact framed_objects0.
    + rewrite framed_scene0, Hs. reflexivity.
    + unfold animation_in_step; simpl.
      rewrite framed_mixer0, framed_clock0, Hck.
      destruct (animations gltf) as [[|clip rest]|].
      * split; [exact Hx | reflexivity].
      * eexists. split; [reflexivity|]. repeat split.
      * split; [exact Hx | reflexivity].
Qed.

Ltac plain_event :=
  unfold has_model in *; simpl in *; rewrite ?renders_count in *;
  split; unfold has_model; simpl;
  rewrite ?renders_count, ?count_app, ?count_one; simpl;
  try assumption; try reflexivity; try lia.

Lemma deliver_steady s e :
  invariant s -> steady s -> enabled e s = true ->
  steady (state_of (deliver e s)).
Proof.
  intros Inv St Hen.
  destruct e as [t | w h | p | loaded total | gltf | err].
  - now apply frame_steady.
  - destruct St.
    destruct s as [ct sc cam rd ctl md mx ck ob [wn t rl ld fr cl]].
    plain_event.
    + apply Forall_app. split.
      * apply Forall_app. split; [assumption | repeat constructor].
      * repeat constructor.
    + eapply load_state_ext; [..|exact steady_load0]; auto.
  - destruct Inv as [[c Hc] _ _ _]. destruct St.
    destruct s as [ct sc cam rd ctl md mx ck ob [wn t rl ld fr cl]].
    simpl in Hc. subst ctl. plain_event.
    eapply load_state_ext; [..|exact steady_load0]; auto.
  - destruct St.
    destruct s as [ct sc cam rd ctl md mx ck ob [wn t rl ld fr cl]].
    plain_event.
    + apply Forall_app. split; [assumption | repeat constructor].
    + eapply load_state_ext; [..|exact steady_load0]; auto.
  - destruct Inv as [Hc Hf Hls Hinv].
    apply load_done_steady; [split; assumption | exact Hen | exact St].
  - destruct St.
    destruct s as [ct sc cam rd ctl md mx ck ob [wn t rl ld fr cl]].
    plain_event.
    + apply Forall_app. split; [assumption | repeat constructor].
    + eapply load_state_ext; [..|exact steady_load0]; auto.
Qed.

Lemma reachable_steady s : reachable s -> steady s.
Proof.
  induction 1 as [found w t s Hnew | s e Hr IH Hen].
  - eapply constructor_steady; eassumption.
  - apply deliver_steady; [now apply reachable_invariant | exact IH | exact Hen].
Qed.

Lemma run_reachable es :
  forall s, reachable s -> admissible es s = true -> reachable (run es s).
Proof.
  induction es as [|e es IH]; intros s Hr Had; simpl in *; [exact Hr|].
  apply andb_prop in Had. destruct Had as [Hen Had].
  apply IH; [now apply reach_event | exact Had].
Qed.

(** X1.  When no element has the id given to the constructor, [init]
    throws a [TypeError] at [appendChild]: the renderer has been sized,
    but the controller is not created, no listener is registered, no
    light is added, no load is started and no frame is requested. *)
Theorem constructor_needs_container w t :
  exists s,
    constructor None w t = Thrown (TypeError "this.container is null") s /\
    calls (page s) =
      [CallSetPixelRatio (devicePixelRatio w);
       CallSetSize (innerWidth w) (innerHeight w);
       CallSetClearColor 0 0] /\
    width (renderer s) = innerWidth w /\
    height (renderer s) = innerHeight w /\
    cam_position (camera s) = vec3 0 0 0 /\
    controls s = None /\ scene s = [] /\ model s = None /\
    resizeListeners (page s) = 0%nat /\ loading (page s) = false /\
    frameRequests (page s) = 0%nat.
Proof.
  eexists. split; [unfold_acts; reflexivity|]. repeat split.
Qed.

(** X2.  In every state the page can be in exactly one frame callback is
    pending and exactly one resize listener is registered: frames do not
    pile up and the loop does not run dry. *)
Theorem one_frame_pending s :
  reachable s ->
  frameRequests (page s) = 1%nat /\ resizeListeners (page s) = 1%nat.
Proof.
  intros Hr. destruct (reachable_steady s Hr). split; assumption.
Qed.

(** X3.  Over the whole life of the page the set-up calls are made once:
    one [loader.load], one [addEventListener], one [new OrbitControls],
    one [appendChild], and one [scene.add] per light plus one for the
    model once it is there. *)
Theorem setup_calls_once s :
  reachable s ->
  count is_load (calls (page s)) = 1%nat /\
  count is_listen (calls (page s)) = 1%nat /\
  count is_new_controls (calls (page s)) = 1%nat /\
  count is_append (calls (page s)) = 1%nat /\
  count is_scene_add (calls (page s)) = (5 + has_model s)%nat.
Proof.
  intros Hr. destruct (reachable_steady s Hr). repeat split; assumption.
Qed.

(** X4.  In every state the page can be in the renderer has the inner
    size of the window, a transparent black clear colour, and a canvas
    positioned absolutely at the top left. *)
Theorem renderer_tracks_window s :
  reachable s ->
  width (renderer s) = innerWidth (window (page s)) /\
  height (renderer s) = innerHeight (window (page s)) /\
  clearColor (renderer s) = 0%Z /\ clearAlpha (renderer s) = 0 /\
  style_position (domElement (renderer s)) = css_text "absolute" /\
  style_top (domElement (renderer s)) = css_text "0" /\
  style_left (domElement (renderer s)) = css_text "0".
Proof.
  intros Hr. destruct (reachable_steady s Hr).
  destruct steady_clear0, steady_style0 as (? & ? & ?).
  repeat split; assumption.
Qed.

(** X5.  The controller is updated once for every render, and once more
    by the load callback: in every state the log holds as many
    [controls.update()] calls as render calls, plus one once the model is
    there. *)
Theorem controller_updates_per_render s :
  reachable s ->
  count is_controls_update (calls (page s)) =
  (renders (calls (page s)) + has_model s)%nat.
Proof.
  intros Hr. destruct (reachable_steady s Hr). assumption.
Qed.

(** X6.  No frame is rendered unlit: every render call of the log was
    given a scene that holds the five lights, in the order of
    [setupLights], followed by nothing or by the one model. *)
Theorem renders_are_lit s :
  reachable s ->
  forall sc cam,
    In (CallRender sc cam) (calls (page s)) ->
    sc = lights \/ sc = lights ++ [SceneObject 0].
Proof.
  intros Hr sc cam Hin. destruct (reachable_steady s Hr).
  rewrite Forall_forall in steady_lit0.
  exact (steady_lit0 _ Hin).
Qed.

Lemma deliver_keeps_store s e :
  loading (page s) = false -> enabled e s = true ->
  model (state_of (deliver e s)) = model s /\
  objects (state_of (deliver e s)) = objects s /\
  scene (state_of (deliver e s)) = scene s.
Proof.
  intros Hl Hen.
  destruct s as [ct sc cam rd ctl md mx ck ob [wn t rl ld fr cl]].
  simpl in Hl. subst ld.
  destruct e as [t0 | w h | p | loaded total | gltf | err];
    simpl in Hen; try discriminate.
  - unfold_acts. destruct ctl as [c|]; [destruct mx as [m|]|];
      repeat split.
  - repeat split.
  - unfold_acts. destruct ctl as [c|]; repeat split.
Qed.

Lemma deliver_keeps_load_over s e :
  loading (page s) = false -> enabled e s = true ->
  loading (page (state_of (deliver e s))) = false.
Proof.
  intros Hl Hen.
  destruct s as [ct sc cam rd ctl md mx ck ob [wn t rl ld fr cl]].
  simpl in Hl. subst ld.
  destruct e as [t0 | w h | p | loaded total | gltf | err];
    simpl in Hen; try discriminate.
  - unfold_acts. destruct ctl as [c|]; [destruct mx as [m|]|]; reflexivity.
  - reflexivity.
  - unfold_acts. destruct ctl as [c|]; reflexivity.
Qed.

Lemma run_keeps_store es :
  forall s,
    loading (page s) = false -> admissible es s = true ->
    loading (page (run es s)) = false /\
    model (run es s) = model s /\ objects (run es s) = objects s /\
    scene (run es s) = scene s.
Proof.
  induction es as [|e es IH]; intros s Hl Had; simpl in *.
  - repeat split. exact Hl.
  - apply andb_prop in Had. destruct Had as [Hen Had].
    destruct (deliver_keeps_store s e Hl Hen) as (Hm & Ho & Hs).
    destruct (IH _ (deliver_keeps_load_over s e Hl Hen) Had)
      as (H1 & H2 & H3 & H4).
    rewrite H2, H3, H4, Hm, Ho, Hs. repeat split. exact H1.
Qed.

(** X7.  The viewer holds at most one model, and the one it was given.
    In every state the page can be in either nothing is held (empty
    store, lights only in the scene), or the load is over and the store
    holds one model, re-centred as the load callback leaves it, shown
    after the lights.  And when the loader delivers an asset, then after
    the callback and after any run of frames, resizes and pointer input
    that follows, the store holds exactly that asset's scene, with its
    geometry, the scale 1.2 and the position the callback gave it: no
    handler moves, rescales or replaces it. *)
Theorem model_loaded_once s gltf es :
  reachable s ->
  ((model s = None /\ objects s = [] /\ scene s = lights /\
    mixer s = None) \/
   (loading (page s) = false /\
    exists g,
      model s = Some 0%nat /\ objects s = [centred g] /\
      scene s = lights ++ [SceneObject 0])) /\
  (loading (page s) = true ->
   admissible es (state_of (deliver (LoadDone gltf) s)) = true ->
   let s' := run es (state_of (deliver (LoadDone gltf) s)) in
   loading (page s') = false /\
   model s' = Some 0%nat /\
   scene s' = lights ++ [SceneObject 0] /\
   objects s' = [centred gltf] /\
   objects s' =
     [{| obj_position := vec3 (0 - x (getCenter (measured gltf)))
                              (-0.5)
                              (0 - z (getCenter (measured gltf)));
         obj_scale := vec3 1.2 1.2 1.2;
         obj_points := obj_points (gltf_scene gltf) |}]).
Proof.
  intros Hr. pose proof (reachable_steady s Hr) as St. split.
  - destruct (steady_load _ St) as [H1 H2 H3 H4 H5 | g H0 H1 H2 H3 H4].
    + left. repeat split; assumption.
    + right. split; [exact H0|]. exists g. repeat split; assumption.
  - intros Hl Had s'.
    destruct (reachable_invariant s Hr) as [_ _ _ Hinv].
    destruct (Hinv Hl) as (Hm & _ & Hs).
    assert (Ho : objects s = []).
    { destruct (steady_load _ St) as [? H ? ? ?|? H ? ? ? ?];
        [exact H | congruence]. }
    destruct (load_done gltf s Hr)
      as (c & s1 & s2 & _ & _ & F & Hd & Hup & Hm2 & Ho2 & _).
    assert (Hst : state_of (deliver (LoadDone gltf) s) = s2)
      by (rewrite Hd, Hup; reflexivity).
    assert (Hsc : scene s2 = scene s1).
    { revert Hup. unfold controls_update.
      rewrite (framed_controls _ _ _ _ F).
      intros H; injection H as <-. reflexivity. }
    assert (Hl2 : loading (page s2) = false).
    { revert Hup. unfold controls_update.
      rewrite (framed_controls _ _ _ _ F).
      intros H; injection H as <-. simpl.
      apply (framed_loading _ _ _ _ F). }
    unfold s'. rewrite Hst in *.
    destruct (run_keeps_store es s2 Hl2 Had) as (H1 & H2 & H3 & H4).
    rewrite H2, H3, H4, Hm2, Ho2, Hsc.
    rewrite (framed_model _ _ _ _ F), (framed_objects _ _ _ _ F),
      (framed_scene _ _ _ _ F).
    simpl. rewrite Ho, Hs. simpl. repeat split. exact H1.
Qed.

(** X8.  The animation runs on the clock: the clock is not read before a
    mixer exists, and once one exists, it is rooted at the model, plays
    the one clip the load callback started, and its time is the clock's
    elapsed time. *)
Theorem mixer_time_is_clock_time s :
  reachable s ->
  match mixer s with
  | None => clock s = newClock
  | Some m =>
      mixer_time m = elapsedTime (clock s) /\
      model s = Some (mixer_root m) /\
      exists clip, mixer_playing m = [clip]
  end.
Proof.
  intros Hr. destruct (reachable_steady s Hr).
  destruct steady_load0 as [H1 H2 H3 H4 H5 | gltf H0 H1 H2 H3 H4].
  - rewrite H4. exact H5.
  - unfold animation_in_step in H4.
    destruct (animations gltf) as [[|clip rest]|].
    + destruct H4 as [-> H]. exact H.
    + destruct H4 as (m & -> & Hroot & Hplay & Htime & _).
      split; [exact Htime|]. split; [now rewrite Hroot|].
      exists clip. exact Hplay.
    + destruct H4 as [-> H]. exact H.
Qed.

(** X9.  The first frame after the clips are loaded advances the
    animation by nothing, however long the load took; every later frame
    advances it by the seconds that passed since the frame before. *)
Theorem first_animated_frame_is_still s t m :
  reachable s -> mixer s = Some m ->
  exists s' m',
    deliver (Frame t) s = Normal s' /\ mixer s' = Some m' /\
    running (clock s') = true /\ oldTime (clock s') = t /\
    mixer_time m' =
      if running (clock s)
      then mixer_time m + (t - oldTime (clock s)) / 1000
      else 0.
Proof.
  intros Hr Hm.
  destruct (reachable_invariant s Hr) as [[c Hc] _ _ _].
  destruct (reachable_steady s Hr).
  assert (Hc0 : controls (frame_start t s) = Some c) by exact Hc.
  destruct (animate_runs _ c Hc0) as [s' [Hrun A]].
  assert (Hmx : mixer s' = Some (mixer_update (fst (getDelta t (clock s))) m)).
  { rewrite (animated_mixer _ _ _ A). simpl. now rewrite Hm. }
  assert (Hck : clock s' = snd (getDelta t (clock s))).
  { rewrite (animated_clock _ _ _ A). simpl. now rewrite Hm. }
  exists s', (mixer_update (fst (getDelta t (clock s))) m).
  split; [rewrite deliver_Frame; exact Hrun|].
  split; [exact Hmx|].
  rewrite Hck. unfold getDelta.
  destruct steady_load0 as [H1 H2 H3 H4 H5 | gltf H0 H1 H2 H3 H4];
    [congruence|].
  unfold animation_in_step in H4.
  destruct (animations gltf) as [[|clip rest]|];
    try (destruct H4; congruence).
  destruct H4 as (m0 & Hm0 & _ & _ & Htime & Hstart).
  assert (m0 = m) by congruence. subst m0.
  destruct (running (clock s)) eqn:Hrun'; simpl.
  - repeat split.
  - repeat split. rewrite Htime, (Hstart eq_refl). simpl. lra.
Qed.

(** ** Resizes, progress reports and the end of the load *)

(** X10.  Of two resizes in a row the last one wins: the viewer is left
    as the second resize alone would leave it, with both resizes in the
    log.  In particular resizing twice to the same size changes nothing
    the second time. *)
Theorem resize_last_wins s a b w h :
  let s1 := state_of (deliver (Resize w h) s) in
  let s2 := state_of (deliver (Resize w h)
                        (state_of (deliver (Resize a b) s))) in
  camera s2 = camera s1 /\ renderer s2 = renderer s1 /\
  window (page s2) = window (page s1) /\
  controls s2 = controls s1 /\ scene s2 = scene s1 /\
  model s2 = model s1 /\ mixer s2 = mixer s1 /\ clock s2 = clock s1 /\
  objects s2 = objects s1 /\ container s2 = container s1 /\
  now (page s2) = now (page s1) /\
  resizeListeners (page s2) = resizeListeners (page s1) /\
  loading (page s2) = loading (page s1) /\
  frameRequests (page s2) = frameRequests (page s1) /\
  calls (page s2) =
    calls (page s) ++ [CallUpdateProjectionMatrix; CallSetSize a b;
                       CallUpdateProjectionMatrix; CallSetSize w h].
Proof.
  destruct s as [ct sc cam rd ctl md mx ck ob [wn t rl ld fr cl]].
  simpl. rewrite <- !app_assoc. repeat split.
Qed.

(** X11.  Progress reports only log: after any number of them, each
    logged as loaded / total * 100, every field of the viewer and of the
    page is as before, and the load is as pending as it was. *)
Theorem progress_changes_nothing reports :
  forall s,
    let s' := run (progress reports) s in
    container s' = container s /\ scene s' = scene s /\
    camera s' = camera s /\ renderer s' = renderer s /\
    controls s' = controls s /\ model s' = model s /\
    mixer s' = mixer s /\ clock s' = clock s /\ objects s' = objects s /\
    window (page s') = window (page s) /\ now (page s') = now (page s) /\
    resizeListeners (page s') = resizeListeners (page s) /\
    loading (page s') = loading (page s) /\
    frameRequests (page s') = frameRequests (page s) /\
    calls (page s') =
      calls (page s)
      ++ map (fun r => CallConsoleLog (fst r / snd r * 100)) reports.
Proof.
  induction reports as [|r reports IH]; intros s; simpl.
  - rewrite app_nil_r. repeat split.
  - specialize (IH (state_of (deliver (LoadProgress (fst r) (snd r)) s))).
    simpl in IH.
    destruct IH as (H1 & H2 & H3 & H4 & H5 & H6 & H7 & H8 & H9 & H10
                    & H11 & H12 & H13 & H14 & H15).
    unfold progress in *.
    rewrite H1, H2, H3, H4, H5, H6, H7, H8, H9, H10, H11, H12, H13, H14, H15.
    destruct s as [ct sc cam rd ctl md mx ck ob [wn t rl ld fr cl]].
    simpl. rewrite <- app_assoc. repeat split.
Qed.

Lemma deliver_after_load s e :
  loading (page s) = false -> enabled e s = true ->
  is_loader_event e = false /\
  loading (page (state_of (deliver e s))) = false /\
  count is_load (calls (page (state_of (deliver e s))))
  = count is_load (calls (page s)).
Proof.
  intros Hl Hen.
  destruct s as [ct sc cam rd ctl md mx ck ob [wn t rl ld fr cl]].
  simpl in Hl. subst ld.
  destruct e as [t0 | w h | p | loaded total | gltf | err];
    simpl in Hen; try discriminate.
  - split; [reflexivity|]. unfold_acts.
    destruct ctl as [c|]; [destruct mx as [m|]|]; simpl;
      rewrite ?count_app, ?count_one; simpl; split; try reflexivity; lia.
  - split; [reflexivity|]. simpl.
    rewrite ?count_app, ?count_one; simpl. split; [reflexivity | lia].
  - split; [reflexivity|]. unfold_acts.
    destruct ctl as [c|]; simpl; split; reflexivity.
Qed.

(** X12.  The outcome of the load is final.  Once the load is over, by a
    success or by a failure, no run of the page holds a loader callback,
    the load is never pending again and [loader.load] is never called
    again: a failed load is not retried, a model is not reloaded. *)
Theorem load_outcome_is_final es :
  forall s,
    loading (page s) = false -> admissible es s = true ->
    forallb (fun e => negb (is_loader_event e)) es = true /\
    loading (page (run es s)) = false /\
    count is_load (calls (page (run es s))) = count is_load (calls (page s)).
Proof.
  induction es as [|e es IH]; intros s Hl Had; simpl in *.
  - repeat split. exact Hl.
  - apply andb_prop in Had. destruct Had as [Hen Had].
    destruct (deliver_after_load s e Hl Hen) as (He & Hl' & Hc).
    destruct (IH _ Hl' Had) as (H1 & H2 & H3).
    rewrite He, H1, H2, H3, Hc. repeat split.
Qed.

(** ** The framing arithmetic *)

Lemma expandByPoint_ordered b p : ordered b -> ordered (expandByPoint b p).
Proof.
  destruct b as [bb|]; simpl.
  - intros (Hx & Hy & Hz). repeat split;
      (eapply Rle_trans; [apply Rmin_r | apply Rmax_r]).
  - intros _. repeat split; apply Rle_refl.
Qed.

Lemma fold_expand_ordered ps :
  forall b, ordered b -> ordered (fold_left expandByPoint ps b).
Proof.
  induction ps as [|p ps IH]; intros b Hb; simpl; [exact Hb|].
  apply IH. now apply expandByPoint_ordered.
Qed.

Lemma setFromObject_ordered o : ordered (setFromObject o).
Proof. apply fold_expand_ordered. exact I. Qed.

Lemma maxDim_nonneg b : ordered b -> 0 <= maxDim b.
Proof.
  unfold maxDim. destruct b as [bb|]; simpl.
  - intros (Hx & Hy & Hz).
    eapply Rle_trans; [|apply Rmax_l].
    eapply Rle_trans; [|apply Rmax_l]. lra.
  - intros _. unfold Rmax. repeat destruct (Rle_dec _ _); lra.
Qed.

Lemma half_angle_sin (f : R) :
  0 < f < 360 -> 0 < sin (f * (PI / 180) / 2) <= 1.
Proof.
  intros [H0 H1]. pose proof PI_RGT_0 as Hpi. split.
  - apply sin_gt_0; nra.
  - apply SIN_bound.
Qed.

(** X13.  For a camera whose field of view lies between 0 and 360
    degrees the absolute value of line 109 is idle: the completion
    callback puts the camera at z = 0.8 * maxDim / sin(fov / 2), which is
    never negative and never nearer than 0.8 times the largest extent of
    the model's box. *)
Theorem framing_distance_bound gltf s :
  reachable s -> loading (page s) = true ->
  0 < fov (camera s) < 360 ->
  exists s1,
    onLoad_framing gltf (load_end s) = Normal s1 /\
    z (cam_position (camera s1)) =
      0.8 * maxDim (measured gltf) / sin (fov (camera s) * (PI / 180) / 2) /\
    0 <= 0.8 * maxDim (measured gltf) <= z (cam_position (camera s1)).
Proof.
  intros Hr _ Hfov.
  destruct (load_done gltf s Hr)
    as (c & s1 & s' & _ & Hrun & Hpost & _).
  exists s1. split; [exact Hrun|].
  rewrite (framed_camera _ _ _ _ Hpost); simpl.
  unfold framing_distance. fold (maxDim (measured gltf)).
  pose proof (maxDim_nonneg _ (setFromObject_ordered (placed gltf))) as Hm.
  fold (measured gltf) in Hm.
  destruct (half_angle_sin _ Hfov) as [Hs0 Hs1].
  set (d := maxDim (measured gltf)) in *.
  set (sn := sin (fov (camera s) * (PI / 180) / 2)) in *.
  assert (Hq : d <= d / sn).
  { apply Rmult_le_reg_r with sn; [exact Hs0|].
    unfold Rdiv. rewrite Rmult_assoc, Rinv_l by lra. nra. }
  rewrite Rabs_pos_eq by lra.
  split; [unfold Rdiv; lra|]. split; lra.
Qed.

(** X14.  An asset without geometry has an empty box: the completion
    callback leaves its model at (0, -0.5, 0), puts the camera at z = 0
    and aims the controller at the origin. *)
Theorem empty_asset_collapses gltf s :
  reachable s -> loading (page s) = true ->
  obj_points (gltf_scene gltf) = [] ->
  exists s1 c1 o,
    onLoad_framing gltf (load_end s) = Normal s1 /\
    z (cam_position (camera s1)) = 0 /\
    controls s1 = Some c1 /\ target c1 = vec3 0 0 0 /\
    objects s1 = objects s ++ [o] /\ obj_position o = vec3 0 (-0.5) 0.
Proof.
  intros Hr _ He.
  destruct (load_done gltf s Hr)
    as (c & s1 & s' & _ & Hrun & Hpost & _).
  assert (Hb : measured gltf = None).
  { unfold measured, setFromObject, placed; simpl. now rewrite He. }
  exists s1. do 2 eexists.
  split; [exact Hrun|].
  split.
  { rewrite (framed_camera _ _ _ _ Hpost); simpl.
    unfold framing_distance. rewrite Hb; simpl.
    unfold Rmax. repeat destruct (Rle_dec _ _); try lra;
      unfold Rdiv; rewrite Rmult_0_l, Rabs_R0; lra. }
  split; [apply (framed_controls _ _ _ _ Hpost)|].
  split; [simpl; rewrite Hb; simpl; f_equal; lra|].
  split; [apply (framed_objects _ _ _ _ Hpost)|].
  unfold centred; simpl. rewrite Hb; simpl. f_equal; lra.
Qed.

Lemma Rmin_affine (k d a b : R) :
  0 <= k -> Rmin (d + k * a) (d + k * b) = d + k * Rmin a b.
Proof.
  intros Hk. unfold Rmin.
  destruct (Rle_dec a b), (Rle_dec (d + k * a) (d + k * b)); nra.
Qed.

Lemma Rmax_affine (k d a b : R) :
  0 <= k -> Rmax (d + k * a) (d + k * b) = d + k * Rmax a b.
Proof.
  intros Hk. unfold Rmax.
  destruct (Rle_dec a b), (Rle_dec (d + k * a) (d + k * b)); nra.
Qed.

Lemma fold_expand_affine (k d : Vector3) ps :
  0 <= x k -> 0 <= y k -> 0 <= z k ->
  forall b,
    fold_left expandByPoint
      (map (fun p => vec3 (x d + x k * x p) (y d + y k * y p)
                          (z d + z k * z p)) ps)
      (affine k d b)
    = affine k d (fold_left expandByPoint ps b).
Proof.
  intros Hx Hy Hz.
  induction ps as [|p ps IH]; intros b; simpl; [reflexivity|].
  rewrite <- IH. f_equal.
  destruct b as [bb|]; simpl; [|reflexivity].
  now rewrite !Rmin_affine, !Rmax_affine.
Qed.

(** X15.  The box the callback measures depends on the asset's geometry
    only, not on the position or scale the asset came with: it is the box
    of the raw points scaled by 1.2 and lowered by 0.5, so its extents,
    and with them the largest one, are 1.2 times the raw ones. *)
Theorem measured_scales_raw_box gltf :
  let raw := setFromPoints (obj_points (gltf_scene gltf)) in
  measured gltf = affine (vec3 1.2 1.2 1.2) (vec3 0 (-0.5) 0) raw /\
  getSize (measured gltf) =
    vec3 (1.2 * x (getSize raw)) (1.2 * y (getSize raw))
         (1.2 * z (getSize raw)) /\
  maxDim (measured gltf) = 1.2 * maxDim raw /\
  (raw <> None ->
   getCenter (measured gltf) =
     vec3 (1.2 * x (getCenter raw)) (1.2 * y (getCenter raw) - 0.5)
          (1.2 * z (getCenter raw))).
Proof.
  intros raw.
  assert (H : measured gltf
              = affine (vec3 1.2 1.2 1.2) (vec3 0 (-0.5) 0) raw).
  { unfold raw, measured, setFromObject, setFromPoints.
    change (@None Bounds)
      with (affine (vec3 1.2 1.2 1.2) (vec3 0 (-0.5) 0) None) at 1.
    rewrite <- fold_expand_affine by (simpl; lra).
    reflexivity. }
  split; [exact H|].
  assert (Hs : getSize (measured gltf) =
               vec3 (1.2 * x (getSize raw)) (1.2 * y (getSize raw))
                    (1.2 * z (getSize raw))).
  { rewrite H. destruct raw as [bb|]; simpl; f_equal; lra. }
  split; [exact Hs|]. split.
  - unfold maxDim. rewrite Hs; simpl.
    rewrite !RmaxRmult by lra. reflexivity.
  - intros Hne. rewrite H. destruct raw as [bb|]; [|congruence].
    simpl. f_equal; lra.
Qed.

(** ** What holds when the controller keeps to its own *)

Lemma same_lens_in_step s s' :
  window (page s') = window (page s) ->
  same_lens (camera s') (camera s) -> lens_in_step s -> lens_in_step s'.
Proof.
  unfold lens_in_step. intros -> (H1 & H2 & H3 & H4 & H5).
  rewrite H1, H2, H3, H4, H5. auto.
Qed.

(** X16.  With a controller that moves the camera and leaves its lens
    alone, the camera matches the window in every state the page can be
    in: field of view 75, near 0.1, far 1000, the aspect of the window,
    and a projection matrix computed from exactly these. *)
Theorem camera_tracks_window s :
  moves_only -> reachable s -> lens_in_step s.
Proof.
  intros [Hnew Hupd] Hr.
  induction Hr as [found w t s Hnew' | s e Hr IH Hen].
  - destruct found as [c|].
    + revert Hnew'. unfold_acts. intros H; injection H as <-.
      unfold lens_in_step; simpl.
      match goal with
      | |- context [orbit_update ?c ?cam] =>
          destruct (Hupd c cam) as (U1 & U2 & U3 & U4 & U5)
      end.
      match goal with
      | |- context [orbit_new ?cam] =>
          destruct (Hnew cam) as (N1 & N2 & N3 & N4 & N5)
      end.
      rewrite U1, U2, U3, U4, U5, N1, N2, N3, N4, N5. simpl.
      repeat split.
    + destruct (constructor_without_container w t) as [e [s' H]].
      rewrite H in Hnew'; discriminate.
  - destruct (reachable_invariant s Hr) as [[c Hc] _ _ _].
    destruct e as [t | w h | p | loaded total | gltf | err].
    + assert (Hc0 : controls (frame_start t s) = Some c) by exact Hc.
      destruct (animate_runs _ c Hc0) as [s' [Hrun A]].
      rewrite deliver_Frame, Hrun; simpl.
      apply (same_lens_in_step s s'); [| |exact IH].
      * now rewrite (animated_window _ _ _ A).
      * rewrite (animated_camera _ _ _ A). apply Hupd.
    + destruct s as [ct sc cam rd ctl md mx ck ob [wn t rl ld fr cl]].
      unfold lens_in_step in *; simpl in *.
      destruct IH as (H1 & H2 & H3 & H4 & H5).
      rewrite H1, H2, H3. repeat split.
    + unfold deliver, on_controls. rewrite Hc. exact IH.
    + exact IH.
    + assert (Hc0 : controls (load_end s) = Some c) by exact Hc.
      destruct (onLoad_runs gltf (load_end s) c Hc0)
        as [s1 [_ [F [Hseq Hup]]]].
      rewrite deliver_LoadDone, Hseq, Hup; simpl.
      unfold lens_in_step in *; simpl.
      match goal with
      | |- context [orbit_update ?c ?cam] =>
          destruct (Hupd c cam) as (U1 & U2 & U3 & U4 & U5)
      end.
      rewrite U1, U2, U3, U4, U5.
      rewrite (framed_camera _ _ _ _ F), (framed_window _ _ _ _ F); simpl.
      destruct IH as (H1 & H2 & H3 & H4 & H5).
      rewrite H1, H2, H3, H4. repeat split.
    + exact IH.
Qed.

Lemma configured_configure c : configured (configure c).
Proof. repeat split. Qed.

(** X17.  With a controller whose [update()] writes neither its settings
    nor its target, the settings of [init] hold in every state the page
    can be in (damping on at 0.05, distances 2 to 10, auto-rotation on
    at speed 1, zoom and pan off), and the target is (0, 0.5, 0) until a
    load succeeds and from then on stands at 0.8 times the height of the
    centre of the model's box. *)
Theorem controls_stay_configured s :
  keeps_settings -> reachable s -> controls_in_step s.
Proof.
  intros Hk Hr.
  induction Hr as [found w t s Hnew' | s e Hr IH Hen].
  - destruct found as [c|].
    + revert Hnew'. unfold_acts. intros H; injection H as <-.
      unfold controls_in_step; simpl.
      eexists. split; [reflexivity|].
      match goal with
      | |- context [orbit_update ?c ?cam] =>
          destruct (Hk c cam)
            as (K1 & K2 & K3 & K4 & K5 & K6 & K7 & K8 & K9 & K10)
      end.
      unfold configured.
      rewrite K1, K2, K3, K4, K5, K6, K7, K8, K9, K10. repeat split.
    + destruct (constructor_without_container w t) as [e [s' H]].
      rewrite H in Hnew'; discriminate.
  - pose proof (reachable_steady s Hr) as St.
    destruct IH as (c & Hc & Hcfg & Htg).
    destruct e as [t | w h | p | loaded total | gltf | err].
    + assert (Hc0 : controls (frame_start t s) = Some c) by exact Hc.
      destruct (animate_runs _ c Hc0) as [s' [Hrun A]].
      rewrite deliver_Frame, Hrun; simpl.
      unfold controls_in_step.
      rewrite (animated_controls _ _ _ A), (animated_model _ _ _ A),
        (animated_objects _ _ _ A); simpl.
      eexists. split; [reflexivity|].
      destruct (Hk c (camera s))
        as (K1 & K2 & K3 & K4 & K5 & K6 & K7 & K8 & K9 & K10).
      unfold configured in *.
      rewrite K1, K2, K3, K4, K5, K6, K7, K8, K9, K10.
      split; [exact Hcfg | exact Htg].
    + destruct s as [ct sc cam rd ctl md mx ck ob [wn t rl ld fr cl]].
      exists c. simpl in *. auto.
    + unfold deliver, on_controls. rewrite Hc; simpl.
      destruct s as [ct sc cam rd ctl md mx ck ob [wn t rl ld fr cl]].
      exists (set_private p c). simpl in *. auto.
    + destruct s as [ct sc cam rd ctl md mx ck ob [wn t rl ld fr cl]].
      exists c. simpl in *. auto.
    + assert (Hc0 : controls (load_end s) = Some c) by exact Hc.
      destruct (onLoad_runs gltf (load_end s) c Hc0)
        as [s1 [_ [F [Hseq Hup]]]].
      rewrite deliver_LoadDone, Hseq, Hup; simpl.
      assert (Ho : objects s = []).
      { destruct (reachable_invariant s Hr) as [_ _ _ Hinv].
        destruct (Hinv Hen) as (Hm & _ & _).
        destruct (steady_load _ St) as [? H ? ? ?|? ? H ? ? ?];
          [exact H | congruence]. }
      unfold controls_in_step; simpl.
      rewrite (framed_model _ _ _ _ F), (framed_objects _ _ _ _ F); simpl.
      rewrite Ho; simpl.
      eexists. split; [reflexivity|].
      match goal with
      | |- context [orbit_update ?c ?cam] =>
          destruct (Hk c cam)
            as (K1 & K2 & K3 & K4 & K5 & K6 & K7 & K8 & K9 & K10)
      end.
      unfold configured in *.
      rewrite K1, K2, K3, K4, K5, K6, K7, K8, K9, K10; simpl.
      split; [exact Hcfg|].
      rewrite centred_box. destruct (measured gltf); simpl; f_equal; lra.
    + destruct s as [ct sc cam rd ctl md mx ck ob [wn t rl ld fr cl]].
      exists c. simpl in *. auto.
Qed.

(** ** More on frames, framing and failed loads *)

(** X18.  A frame writes the camera and the controller (through the
    library), the mixer and the clock, and nothing else: the container,
    the scene, the renderer, the model and the object store are as
    before, and so are the window, the listener and the state of the
    load. *)
Theorem frame_leaves_the_rest s t :
  reachable s ->
  exists s',
    deliver (Frame t) s = Normal s' /\
    container s' = container s /\ scene s' = scene s /\
    renderer s' = renderer s /\ model s' = model s /\
    objects s' = objects s /\
    window (page s') = window (page s) /\
    resizeListeners (page s') = resizeListeners (page s) /\
    loading (page s') = loading (page s) /\
    frameRequests (page s') = frameRequests (page s).
Proof.
  intros Hr.
  destruct (reachable_invariant s Hr) as [[c Hc] Hfr _ _].
  assert (Hc0 : controls (frame_start t s) = Some c) by exact Hc.
  destruct (animate_runs _ c Hc0) as [s' [Hrun A]].
  exists s'. split; [rewrite deliver_Frame; exact Hrun|].
  destruct A; simpl in *. repeat split; try assumption.
  rewrite animated_frames0. lia.
Qed.

Lemma range_kept s :
  keeps_settings -> reachable s ->
  exists c, controls s = Some c /\ minDistance c = 2 /\ maxDistance c = 10.
Proof.
  intros Hk Hr.
  induction Hr as [found w t s Hnew' | s e Hr IH Hen].
  - destruct found as [c|].
    + revert Hnew'. unfold_acts. intros H; injection H as <-. simpl.
      eexists. split; [reflexivity|].
      match goal with
      | |- context [orbit_update ?c ?cam] =>
          destruct (Hk c cam) as (_ & _ & _ & K4 & K5 & _)
      end.
      rewrite K4, K5. split; reflexivity.
    + destruct (constructor_without_container w t) as [e [s' H]].
      rewrite H in Hnew'; discriminate.
  - destruct IH as (c & Hc & Hmin & Hmax).
    destruct e as [t | w h | p | loaded total | gltf | err].
    + assert (Hc0 : controls (frame_start t s) = Some c) by exact Hc.
      destruct (animate_runs _ c Hc0) as [s' [Hrun A]].
      rewrite deliver_Frame, Hrun; simpl.
      rewrite (animated_controls _ _ _ A); simpl.
      eexists. split; [reflexivity|].
      destruct (Hk c (camera s)) as (_ & _ & _ & K4 & K5 & _).
      rewrite K4, K5. split; assumption.
    + destruct s as [ct sc cam rd ctl md mx ck ob [wn t rl ld fr cl]].
      exists c. simpl in *. auto.
    + unfold deliver, on_controls. rewrite Hc; simpl.
      exists (set_private p c). simpl. auto.
    + destruct s as [ct sc cam rd ctl md mx ck ob [wn t rl ld fr cl]].
      exists c. simpl in *. auto.
    + assert (Hc0 : controls (load_end s) = Some c) by exact Hc.
      destruct (onLoad_runs gltf (load_end s) c Hc0)
        as [s1 [_ [F [Hseq Hup]]]].
      rewrite deliver_LoadDone, Hseq, Hup; simpl.
      eexists. split; [reflexivity|].
      match goal with
      | |- context [orbit_update ?c ?cam] =>
          destruct (Hk c cam) as (_ & _ & _ & K4 & K5 & _)
      end.
      rewrite K4, K5. simpl. split; assumption.
    + destruct s as [ct sc cam rd ctl md mx ck ob [wn t rl ld fr cl]].
      exists c. simpl in *. auto.
Qed.

(** X19.  The load callback places the camera without regard to the
    distance range [init] gave the controller.  With a controller whose
    [update()] leaves its settings alone and a field of view between 0
    and 360 degrees, a model whose largest extent is above 12.5 is
    framed from beyond [maxDistance]: in the state the callback hands to
    its closing [controls.update()] the controller still has
    [maxDistance] 10, and the camera is more than that away from the
    controller's target. *)
Theorem framing_can_exceed_maxDistance gltf s :
  keeps_settings -> reachable s -> loading (page s) = true ->
  0 < fov (camera s) < 360 -> 12.5 < maxDim (measured gltf) ->
  exists s1 c1,
    onLoad_framing gltf (load_end s) = Normal s1 /\
    controls s1 = Some c1 /\ maxDistance c1 = 10 /\
    maxDistance c1 * maxDistance c1
    < distance2 (cam_position (camera s1)) (target c1).
Proof.
  intros Hk Hr _ Hfov Hbig.
  destruct (range_kept s Hk Hr) as (c & Hc & _ & Hmax).
  assert (Hc0 : controls (load_end s) = Some c) by exact Hc.
  destruct (onLoad_framing_runs gltf (load_end s) c Hc0) as [s1 [Hrun F]].
  exists s1. eexists.
  split; [exact Hrun|]. split; [apply (framed_controls _ _ _ _ F)|].
  split; [exact Hmax|].
  rewrite (framed_camera _ _ _ _ F); simpl. rewrite Hmax.
  unfold framing_distance, distance2; simpl.
  fold (maxDim (measured gltf)).
  pose proof (maxDim_nonneg _ (setFromObject_ordered (placed gltf))) as Hm.
  fold (measured gltf) in Hm.
  destruct (half_angle_sin _ Hfov) as [Hs0 Hs1].
  set (d := maxDim (measured gltf)) in *.
  set (sn := sin (fov (camera s) * (PI / 180) / 2)) in *.
  assert (Hlo : d <= d / sn).
  { apply Rmult_le_reg_r with sn; [lra|].
    unfold Rdiv. rewrite Rmult_assoc, Rinv_l by lra. nra. }
  rewrite Rabs_pos_eq by lra.
  set (zz := d / sn * 0.8) in *.
  assert (Hz : 10 < zz) by (unfold zz; lra).
  match goal with
  | |- _ < ?a * ?a + ?b * ?b + _ =>
      pose proof (Rle_0_sqr a) as Ha; pose proof (Rle_0_sqr b) as Hb;
      unfold Rsqr in Ha, Hb
  end.
  nra.
Qed.

Lemma deliver_keeps_model s e :
  loading (page s) = false -> enabled e s = true ->
  model (state_of (deliver e s)) = model s.
Proof.
  intros Hl Hen.
  destruct s as [ct sc cam rd ctl md mx ck ob [wn t rl ld fr cl]].
  simpl in Hl. subst ld.
  destruct e as [t0 | w h | p | loaded total | gltf | err];
    simpl in Hen; try discriminate.
  - unfold_acts. destruct ctl as [c|]; [destruct mx as [m|]|]; reflexivity.
  - reflexivity.
  - unfold_acts. destruct ctl as [c|]; reflexivity.
Qed.

(** X20.  A failed load leaves the viewer empty for good: from a state in
    which the load is over and no model is held, every run of the page
    ends with no model, an empty store, no mixer, and the lights alone in
    the scene. *)
Theorem failed_load_stays_empty es :
  forall s,
    reachable s -> loading (page s) = false -> model s = None ->
    admissible es s = true ->
    model (run es s) = None /\ objects (run es s) = [] /\
    mixer (run es s) = None /\ scene (run es s) = lights.
Proof.
  intros s Hr Hl Hm Had.
  assert (Hm' : model (run es s) = None).
  { revert s Hr Hl Hm Had.
    induction es as [|e es IH]; intros s Hr Hl Hm Had; simpl in *;
      [exact Hm|].
    apply andb_prop in Had. destruct Had as [Hen Had].
    destruct (deliver_after_load s e Hl Hen) as (_ & Hl' & _).
    apply IH; [now apply reach_event | exact Hl' | | exact Had].
    now rewrite (deliver_keeps_model s e Hl Hen). }
  pose proof (reachable_steady _ (run_reachable es s Hr Had)) as St.
  destruct (steady_load _ St) as [H1 H2 H3 H4 H5 | gltf H0 H1 H2 H3 H4].
  - repeat split; assumption.
  - congruence.
Qed.

(** ** The sample states are states of the page *)

Lemma loaded_reachable gltf : reachable (loaded gltf).
Proof.
  apply reach_event; [apply started_reachable | reflexivity].
Qed.

Lemma failed_reachable : reachable failed.
Proof.
  apply reach_event; [apply started_reachable | reflexivity].
Qed.

Lemma played_reachable : reachable played.
Proof.
  apply run_reachable; [apply started_reachable|].
  unfold started. unfold_acts. reflexivity.
Qed.

End Viewer.

(** ** The sample page *)

Ltac evaluate :=
  cbv -[IZR Rplus Rminus Rmult Rdiv Rinv Ropp Rabs Rmax Rmin sin PI Rle_dec].

(** C1 on the sample page: the cube, loaded, is centred along x and z. *)
Lemma onLoad_centres_x_and_z_sample :
  reachable sample_new resting_update (started sample_new resting_update) /\
  loading (page (started sample_new resting_update)) = true /\
  exists s' r o,
    deliver resting_update (LoadDone still_asset)
      (started sample_new resting_update) = Normal s' /\
    model s' = Some r /\ nth_error (objects s') r = Some o /\
    obj_position o = vec3 (0 - x (getCenter (measured still_asset)))
                          (-0.5)
                          (0 - z (getCenter (measured still_asset))) /\
    x (getCenter (setFromObject o)) = 0 /\
    z (getCenter (setFromObject o)) = 0.
Proof.
  split; [apply started_reachable|]. split; [reflexivity|].
  apply (onLoad_centres_x_and_z sample_new resting_update still_asset
           (started sample_new resting_update)).
  - apply started_reachable.
  - reflexivity.
Defined.

(** C1 as stated fails along y: the cube of the sample page, scaled by 1.2
    and set at height -0.5, spans the heights -0.5 to 0.7 after the
    callback; its bounding box is centred at height 0.1, not at 0. *)
Lemma onLoad_leaves_y_off_centre :
  exists o,
    model (loaded sample_new resting_update still_asset) = Some 0%nat /\
    nth_error (objects (loaded sample_new resting_update still_asset)) 0
      = Some o /\
    y (getCenter (setFromObject o)) = 0.1 /\
    y (getCenter (setFromObject o)) <> 0.
Proof.
  exists (centred still_asset).
  split; [reflexivity|]. split; [reflexivity|].
  assert (H : y (getCenter (setFromObject (centred still_asset))) = 0.1).
  { evaluate. unfold Rmin, Rmax.
    repeat match goal with
           | |- context [Rle_dec ?a ?b] => destruct (Rle_dec a b)
           end; lra. }
  split; [exact H | rewrite H; lra].
Qed.

(** C2 on the sample page. *)
Lemma onLoad_frames_camera_sample :
  reachable sample_new resting_update (started sample_new resting_update) /\
  loading (page (started sample_new resting_update)) = true /\
  let center := getCenter (measured still_asset) in
  let size := getSize (measured still_asset) in
  let maxDim := Rmax (Rmax (x size) (y size)) (z size) in
  let fov_rad :=
    fov (camera (started sample_new resting_update)) * (PI / 180) in
  exists s1 c1,
    onLoad_framing still_asset
      (load_end (started sample_new resting_update)) = Normal s1 /\
    deliver resting_update (LoadDone still_asset)
      (started sample_new resting_update) = controls_update resting_update s1 /\
    z (cam_position (camera s1)) = 0.8 * Rabs (maxDim / sin (fov_rad / 2)) /\
    controls s1 = Some c1 /\
    target c1 = vec3 0 (0.8 * y center) 0.
Proof.
  split; [apply started_reachable|]. split; [reflexivity|].
  apply (onLoad_frames_camera sample_new resting_update still_asset
           (started sample_new resting_update)).
  - apply started_reachable.
  - reflexivity.
Defined.


(** C4 on the sample page, for the asset that carries the clip [walk]. *)
Lemma onLoad_plays_first_clip_sample :
  reachable sample_new resting_update (started sample_new resting_update) /\
  loading (page (started sample_new resting_update)) = true /\
  exists s' r,
    deliver resting_update (LoadDone walking_asset)
      (started sample_new resting_update) = Normal s' /\
    model s' = Some r /\
    mixer s' = Some {| mixer_root := r; mixer_time := 0;
                       mixer_playing := [walk] |} /\
    calls (page s') =
      calls (page (started sample_new resting_update))
      ++ [CallSceneAdd (SceneObject r); CallClipActionPlay walk;
          CallUpdateProjectionMatrix; CallControlsUpdate].
Proof.
  split; [apply started_reachable|]. split; [reflexivity|].
  apply (onLoad_plays_first_clip sample_new resting_update walking_asset
           (started sample_new resting_update)).
  - apply started_reachable.
  - reflexivity.
Defined.

(** C5 on the sample page, once the walking asset is loaded: the frame
    reads the clock and advances the mixer. *)
Lemma animate_order_sample :
  exists c,
    controls (loaded sample_new resting_update walking_asset) = Some c /\
    exists s',
      animate resting_update (loaded sample_new resting_update walking_asset)
        = Normal s' /\
      calls (page s') =
        calls (page (loaded sample_new resting_update walking_asset))
        ++ [CallRequestAnimationFrame; CallControlsUpdate]
        ++ match mixer (loaded sample_new resting_update walking_asset) with
           | Some _ =>
               [CallGetDelta;
                CallMixerUpdate
                  (fst (getDelta
                          (now (page (loaded sample_new resting_update
                                        walking_asset)))
                          (clock (loaded sample_new resting_update
                                    walking_asset))))]
           | None => []
           end
        ++ [CallRender (scene s') (camera s')] /\
      renders (calls (page s')) =
        S (renders (calls (page (loaded sample_new resting_update
                                   walking_asset)))) /\
      scene s' = scene (loaded sample_new resting_update walking_asset) /\
      (controls s', camera s') =
        (Some (fst (resting_update c
                      (camera (loaded sample_new resting_update
                                 walking_asset)))),
         snd (resting_update c
                (camera (loaded sample_new resting_update walking_asset)))) /\
      match mixer (loaded sample_new resting_update walking_asset) with
      | Some m =>
          let delta :=
            fst (getDelta
                   (now (page (loaded sample_new resting_update
                                 walking_asset)))
                   (clock (loaded sample_new resting_update walking_asset))) in
          mixer s' = Some (mixer_update delta m) /\
          (forall m', mixer s' = Some m' ->
                      mixer_time m' = mixer_time m + delta) /\
          clock s' =
            snd (getDelta
                   (now (page (loaded sample_new resting_update
                                 walking_asset)))
                   (clock (loaded sample_new resting_update walking_asset)))
      | None =>
          mixer s' = None /\
          clock s' = clock (loaded sample_new resting_update walking_asset)
      end.
Proof.
  exists (set_target (vec3 0 (y (getCenter (measured walking_asset)) * 0.8) 0)
            (configure (fst (sample_new (PerspectiveCamera 75 1 1 1))))).
  assert (H : controls (loaded sample_new resting_update walking_asset)
              = Some (set_target
                        (vec3 0 (y (getCenter (measured walking_asset)) * 0.8) 0)
                        (configure
                           (fst (sample_new (PerspectiveCamera 75 1 1 1))))))
    by (evaluate; reflexivity).
  split; [exact H|].
  apply (animate_order resting_update
           (loaded sample_new resting_update walking_asset) _ H).
Defined.

(** C8 on the sample page, while the load is still under way. *)
Lemma frame_loop_renders_sample :
  reachable sample_new resting_update (started sample_new resting_update) /\
  (forall es,
      admissible resting_update es (started sample_new resting_update)
        = true ->
      renders (calls (page (run resting_update es
                              (started sample_new resting_update)))) =
        (renders (calls (page (started sample_new resting_update)))
         + frames es)%nat /\
      forall t', enabled (Frame t')
                   (run resting_update es
                      (started sample_new resting_update)) = true) /\
  (forall s0 : Viewer, exists rest,
      calls (page (state_of (animate resting_update s0))) =
        calls (page s0) ++ CallRequestAnimationFrame :: rest /\
      frameRequests (page (state_of (animate resting_update s0))) =
        S (frameRequests (page s0))) /\
  enabled (Frame 16) (started sample_new resting_update) = true /\
  exists s' work,
    deliver resting_update (Frame 16) (started sample_new resting_update)
      = Normal s' /\
    calls (page s') =
      calls (page (started sample_new resting_update))
      ++ CallRequestAnimationFrame :: work
      ++ [CallRender (scene s') (camera s')] /\
    renders (calls (page s')) =
      S (renders (calls (page (started sample_new resting_update)))) /\
    reachable sample_new resting_update s' /\
    forall t', enabled (Frame t') s' = true.
Proof.
  split; [apply started_reachable|].
  apply (frame_loop_renders sample_new resting_update
           (started sample_new resting_update) 16).
  apply started_reachable.
Defined.

(** C9 on the sample page, while the load is still under way. *)
Lemma animate_guards_mixer_sample :
  reachable sample_new resting_update (started sample_new resting_update) /\
  (loading (page (started sample_new resting_update)) = true ->
   mixer (started sample_new resting_update) = None) /\
  (mixer (started sample_new resting_update) = None ->
   exists s',
     deliver resting_update (Frame 16) (started sample_new resting_update)
       = Normal s' /\
     calls (page s') =
       calls (page (started sample_new resting_update))
       ++ [CallRequestAnimationFrame; CallControlsUpdate;
           CallRender (scene s') (camera s')] /\
     clock s' = clock (started sample_new resting_update) /\
     mixer s' = None) /\
  (forall error,
     loading (page (started sample_new resting_update)) = true ->
     mixer (state_of (deliver resting_update (LoadFailed error)
                        (started sample_new resting_update))) = None) /\
  (forall gltf,
     loading (page (started sample_new resting_update)) = true ->
     animations gltf = None \/ animations gltf = Some [] ->
     mixer (state_of (deliver resting_update (LoadDone gltf)
                        (started sample_new resting_update))) = None).
Proof.
  split; [apply started_reachable|].
  apply (animate_guards_mixer sample_new resting_update
           (started sample_new resting_update) 16).
  apply started_reachable.
Defined.

(** C10 on the sample page. *)
Lemma onLoad_assigns_only_sample :
  reachable sample_new orbiting_update (started sample_new orbiting_update) /\
  loading (page (started sample_new orbiting_update)) = true /\
  exists s1 s' r o,
    onLoad_framing still_asset
      (load_end (started sample_new orbiting_update)) = Normal s1 /\
    deliver orbiting_update (LoadDone still_asset)
      (started sample_new orbiting_update)
      = controls_update orbiting_update s1 /\
    x (cam_position (camera s1)) =
      x (cam_position (camera (started sample_new orbiting_update))) /\
    y (cam_position (camera s1)) =
      y (cam_position (camera (started sample_new orbiting_update))) /\
    deliver orbiting_update (LoadDone still_asset)
      (started sample_new orbiting_update) = Normal s' /\
    model s' = Some r /\ nth_error (objects s') r = Some o /\
    obj_position o =
      vec3 (x (obj_position (placed still_asset))
            - x (getCenter (measured still_asset)))
           (y (obj_position (placed still_asset)))
           (z (obj_position (placed still_asset))
            - z (getCenter (measured still_asset))) /\
    y (obj_position o) = -0.5.
Proof.
  split; [apply started_reachable|]. split; [reflexivity|].
  apply (onLoad_assigns_only sample_new orbiting_update still_asset
           (started sample_new orbiting_update)).
  - apply started_reachable.
  - reflexivity.
Defined.

(** C10 as stated fails for the camera: [init] puts it at x = 0, but the
    frame the constructor runs already hands it to the orbit controller;
    with the orbiting controller of the sample page it is at x = 2.4 when
    the completion callback starts, the callback leaves x as it found it,
    and after the callback's own [controls.update()] x is not 0 either. *)
Lemma orbit_moves_camera_off_axis :
  x (cam_position (camera (started sample_new orbiting_update))) = 2.4 /\
  (exists s1,
     onLoad_framing still_asset
       (load_end (started sample_new orbiting_update)) = Normal s1 /\
     x (cam_position (camera s1)) = 2.4) /\
  x (cam_position (camera (loaded sample_new orbiting_update still_asset)))
    <> 0.
Proof.
  split; [evaluate; lra|]. split.
  - eexists. split; [evaluate; reflexivity|]. evaluate; lra.
  - evaluate.
    match goal with
    | |- context [Rabs ?a] => generalize (Rabs_pos a); generalize (Rabs a)
    end.
    intros d Hd. lra.
Qed.

(** ** The further properties on the sample page *)

(** X2 on the sample page, some way into its life. *)
Lemma one_frame_pending_sample :
  reachable sample_new orbiting_update (played sample_new orbiting_update) /\
  frameRequests (page (played sample_new orbiting_update)) = 1%nat /\
  resizeListeners (page (played sample_new orbiting_update)) = 1%nat.
Proof.
  split; [apply played_reachable|].
  apply (one_frame_pending sample_new orbiting_update
           (played sample_new orbiting_update)).
  apply played_reachable.
Defined.

(** X3 on the sample page. *)
Lemma setup_calls_once_sample :
  reachable sample_new orbiting_update (played sample_new orbiting_update) /\
  count is_load (calls (page (played sample_new orbiting_update))) = 1%nat /\
  count is_listen (calls (page (played sample_new orbiting_update)))
    = 1%nat /\
  count is_new_controls (calls (page (played sample_new orbiting_update)))
    = 1%nat /\
  count is_append (calls (page (played sample_new orbiting_update)))
    = 1%nat /\
  count is_scene_add (calls (page (played sample_new orbiting_update)))
    = (5 + has_model (played sample_new orbiting_update))%nat.
Proof.
  split; [apply played_reachable|].
  apply (setup_calls_once sample_new orbiting_update
           (played sample_new orbiting_update)).
  apply played_reachable.
Defined.

(** X4 on the sample page, after its resize. *)
Lemma renderer_tracks_window_sample :
  reachable sample_new orbiting_update (played sample_new orbiting_update) /\
  width (renderer (played sample_new orbiting_update))
    = innerWidth (window (page (played sample_new orbiting_update))) /\
  height (renderer (played sample_new orbiting_update))
    = innerHeight (window (page (played sample_new orbiting_update))) /\
  clearColor (renderer (played sample_new orbiting_update)) = 0%Z /\
  clearAlpha (renderer (played sample_new orbiting_update)) = 0 /\
  style_position (domElement (renderer (played sample_new orbiting_update)))
    = css_text "absolute" /\
  style_top (domElement (renderer (played sample_new orbiting_update)))
    = css_text "0" /\
  style_left (domElement (renderer (played sample_new orbiting_update)))
    = css_text "0".
Proof.
  split; [apply played_reachable|].
  apply (renderer_tracks_window sample_new orbiting_update
           (played sample_new orbiting_update)).
  apply played_reachable.
Defined.

(** X5 on the sample page. *)
Lemma controller_updates_per_render_sample :
  reachable sample_new orbiting_update (played sample_new orbiting_update) /\
  count is_controls_update (calls (page (played sample_new orbiting_update)))
  = (renders (calls (page (played sample_new orbiting_update)))
     + has_model (played sample_new orbiting_update))%nat.
Proof.
  split; [apply played_reachable|].
  apply (controller_updates_per_render sample_new orbiting_update
           (played sample_new orbiting_update)).
  apply played_reachable.
Defined.

(** X6 on the sample page: the render of the constructor's frame, before
    the model is there. *)
Lemma renders_are_lit_sample :
  reachable sample_new orbiting_update (played sample_new orbiting_update) /\
  In (CallRender lights (camera (started sample_new orbiting_update)))
     (calls (page (played sample_new orbiting_update))) /\
  (lights = lights \/ lights = lights ++ [SceneObject 0]).
Proof.
  assert (Hin : In (CallRender lights
                      (camera (started sample_new orbiting_update)))
                   (calls (page (played sample_new orbiting_update)))).
  { evaluate. do 14 right. left. reflexivity. }
  split; [apply played_reachable|]. split; [exact Hin|].
  apply (renders_are_lit sample_new orbiting_update
           (played sample_new orbiting_update)
           (played_reachable sample_new orbiting_update) _ _ Hin).
Defined.

(** X7 on the sample page: the walking asset is delivered, then two
    frames and a resize follow. *)
Lemma model_loaded_once_sample :
  reachable sample_new resting_update (started sample_new resting_update) /\
  loading (page (started sample_new resting_update)) = true /\
  admissible resting_update [Frame 16; Resize 1024 768; Frame 33]
    (state_of (deliver resting_update (LoadDone walking_asset)
                 (started sample_new resting_update))) = true /\
  ((model (started sample_new resting_update) = None /\
    objects (started sample_new resting_update) = [] /\
    scene (started sample_new resting_update) = lights /\
    mixer (started sample_new resting_update) = None) \/
   (loading (page (started sample_new resting_update)) = false /\
    exists g,
      model (started sample_new resting_update) = Some 0%nat /\
      objects (started sample_new resting_update) = [centred g] /\
      scene (started sample_new resting_update)
        = lights ++ [SceneObject 0])) /\
  (let s' := run resting_update [Frame 16; Resize 1024 768; Frame 33]
               (state_of (deliver resting_update (LoadDone walking_asset)
                            (started sample_new resting_update))) in
   loading (page s') = false /\
   model s' = Some 0%nat /\
   scene s' = lights ++ [SceneObject 0] /\
   objects s' = [centred walking_asset] /\
   objects s' =
     [{| obj_position :=
           vec3 (0 - x (getCenter (measured walking_asset)))
                (-0.5)
                (0 - z (getCenter (measured walking_asset)));
         obj_scale := vec3 1.2 1.2 1.2;
         obj_points := obj_points (gltf_scene walking_asset) |}]).
Proof.
  assert (Ha : admissible resting_update
                 [Frame 16; Resize 1024 768; Frame 33]
                 (state_of (deliver resting_update (LoadDone walking_asset)
                              (started sample_new resting_update))) = true)
    by (evaluate; reflexivity).
  destruct (model_loaded_once sample_new resting_update
              (started sample_new resting_update) walking_asset
              [Frame 16; Resize 1024 768; Frame 33]
              (started_reachable sample_new resting_update)) as [HA HB].
  split; [apply started_reachable|]. split; [reflexivity|].
  split; [exact Ha|]. split; [exact HA|].
  exact (HB eq_refl Ha).
Defined.

(** X8 on the sample page. *)
Lemma mixer_time_is_clock_time_sample :
  reachable sample_new orbiting_update (played sample_new orbiting_update) /\
  match mixer (played sample_new orbiting_update) with
  | None => clock (played sample_new orbiting_update) = newClock
  | Some m =>
      mixer_time m = elapsedTime (clock (played sample_new orbiting_update)) /\
      model (played sample_new orbiting_update) = Some (mixer_root m) /\
      exists clip, mixer_playing m = [clip]
  end.
Proof.
  split; [apply played_reachable|].
  apply (mixer_time_is_clock_time sample_new orbiting_update
           (played sample_new orbiting_update)).
  apply played_reachable.
Defined.

(** X9 on the sample page: the first frame after the walking asset is
    loaded. *)
Lemma first_animated_frame_is_still_sample :
  reachable sample_new resting_update
    (loaded sample_new resting_update walking_asset) /\
  mixer (loaded sample_new resting_update walking_asset)
    = Some (playClip walk (newAnimationMixer 0)) /\
  exists s' m',
    deliver resting_update (Frame 16)
      (loaded sample_new resting_update walking_asset) = Normal s' /\
    mixer s' = Some m' /\
    running (clock s') = true /\ oldTime (clock s') = 16 /\
    mixer_time m' =
      if running (clock (loaded sample_new resting_update walking_asset))
      then mixer_time (playClip walk (newAnimationMixer 0))
           + (16 - oldTime (clock (loaded sample_new resting_update
                                     walking_asset))) / 1000
      else 0.
Proof.
  assert (Hm : mixer (loaded sample_new resting_update walking_asset)
               = Some (playClip walk (newAnimationMixer 0)))
    by (evaluate; reflexivity).
  split; [apply loaded_reachable|]. split; [exact Hm|].
  apply (first_animated_frame_is_still sample_new resting_update
           (loaded sample_new resting_update walking_asset) 16 _
           (loaded_reachable sample_new resting_update walking_asset) Hm).
Defined.

(** X12 on the sample page, after its load has failed. *)
Lemma load_outcome_is_final_sample :
  loading (page (failed sample_new resting_update)) = false /\
  admissible resting_update [Frame 16; Resize 640 480; Frame 33]
    (failed sample_new resting_update) = true /\
  forallb (fun e => negb (is_loader_event e))
    [Frame (P:=unit) 16; Resize 640 480; Frame 33] = true /\
  loading (page (run resting_update [Frame 16; Resize 640 480; Frame 33]
                   (failed sample_new resting_update))) = false /\
  count is_load
    (calls (page (run resting_update [Frame 16; Resize 640 480; Frame 33]
                    (failed sample_new resting_update))))
  = count is_load (calls (page (failed sample_new resting_update))).
Proof.
  assert (Ha : admissible resting_update [Frame 16; Resize 640 480; Frame 33]
                 (failed sample_new resting_update) = true)
    by (evaluate; reflexivity).
  split; [reflexivity|]. split; [exact Ha|].
  apply (load_outcome_is_final resting_update
           [Frame 16; Resize 640 480; Frame 33]
           (failed sample_new resting_update) eq_refl Ha).
Defined.

(** X13 on the sample page, whose camera has a field of view of 75. *)
Lemma framing_distance_bound_sample :
  reachable sample_new resting_update (started sample_new resting_update) /\
  loading (page (started sample_new resting_update)) = true /\
  0 < fov (camera (started sample_new resting_update)) < 360 /\
  exists s1,
    onLoad_framing still_asset
      (load_end (started sample_new resting_update)) = Normal s1 /\
    z (cam_position (camera s1)) =
      0.8 * maxDim (measured still_asset)
      / sin (fov (camera (started sample_new resting_update))
             * (PI / 180) / 2) /\
    0 <= 0.8 * maxDim (measured still_asset) <= z (cam_position (camera s1)).
Proof.
  assert (Hf : 0 < fov (camera (started sample_new resting_update)) < 360)
    by (evaluate; split; lra).
  split; [apply started_reachable|]. split; [reflexivity|].
  split; [exact Hf|].
  apply (framing_distance_bound sample_new resting_update still_asset
           (started sample_new resting_update)
           (started_reachable sample_new resting_update) eq_refl Hf).
Defined.

(** X14 on the sample page, for the asset without geometry. *)
Lemma empty_asset_collapses_sample :
  reachable sample_new resting_update (started sample_new resting_update) /\
  loading (page (started sample_new resting_update)) = true /\
  obj_points (gltf_scene hollow_asset) = [] /\
  exists s1 c1 o,
    onLoad_framing hollow_asset
      (load_end (started sample_new resting_update)) = Normal s1 /\
    z (cam_position (camera s1)) = 0 /\
    controls s1 = Some c1 /\ target c1 = vec3 0 0 0 /\
    objects s1 = objects (started sample_new resting_update) ++ [o] /\
    obj_position o = vec3 0 (-0.5) 0.
Proof.
  split; [apply started_reachable|]. split; [reflexivity|].
  split; [reflexivity|].
  apply (empty_asset_collapses sample_new resting_update hollow_asset
           (started sample_new resting_update)
           (started_reachable sample_new resting_update) eq_refl eq_refl).
Defined.

(** X16 on the sample page, with the orbiting controller. *)
Lemma camera_tracks_window_sample :
  moves_only sample_new orbiting_update /\
  reachable sample_new orbiting_update (played sample_new orbiting_update) /\
  lens_in_step (played sample_new orbiting_update).
Proof.
  assert (Hm : moves_only sample_new orbiting_update).
  { split; intros; repeat split. }
  split; [exact Hm|]. split; [apply played_reachable|].
  apply (camera_tracks_window sample_new orbiting_update
           (played sample_new orbiting_update) Hm).
  apply played_reachable.
Defined.

(** X17 on the sample page, with the orbiting controller. *)
Lemma controls_stay_configured_sample :
  keeps_settings orbiting_update /\
  reachable sample_new orbiting_update (played sample_new orbiting_update) /\
  controls_in_step (played sample_new orbiting_update).
Proof.
  assert (Hk : keeps_settings orbiting_update).
  { intros c cam. repeat split. }
  split; [exact Hk|]. split; [apply played_reachable|].
  apply (controls_stay_configured sample_new orbiting_update
           (played sample_new orbiting_update) Hk).
  apply played_reachable.
Defined.

(** X18 on the sample page. *)
Lemma frame_leaves_the_rest_sample :
  reachable sample_new orbiting_update (played sample_new orbiting_update) /\
  exists s',
    deliver orbiting_update (Frame 66) (played sample_new orbiting_update)
      = Normal s' /\
    container s' = container (played sample_new orbiting_update) /\
    scene s' = scene (played sample_new orbiting_update) /\
    renderer s' = renderer (played sample_new orbiting_update) /\
    model s' = model (played sample_new orbiting_update) /\
    objects s' = objects (played sample_new orbiting_update) /\
    window (page s') = window (page (played sample_new orbiting_update)) /\
    resizeListeners (page s')
      = resizeListeners (page (played sample_new orbiting_update)) /\
    loading (page s') = loading (page (played sample_new orbiting_update)) /\
    frameRequests (page s')
      = frameRequests (page (played sample_new orbiting_update)).
Proof.
  split; [apply played_reachable|].
  apply (frame_leaves_the_rest sample_new orbiting_update
           (played sample_new orbiting_update) 66).
  apply played_reachable.
Defined.

(** X19 on the sample page: the cube of side 20 is framed from beyond
    [maxDistance]. *)
Lemma framing_can_exceed_maxDistance_sample :
  keeps_settings resting_update /\
  reachable sample_new resting_update (started sample_new resting_update) /\
  loading (page (started sample_new resting_update)) = true /\
  0 < fov (camera (started sample_new resting_update)) < 360 /\
  12.5 < maxDim (measured big_asset) /\
  exists s1 c1,
    onLoad_framing big_asset
      (load_end (started sample_new resting_update)) = Normal s1 /\
    controls s1 = Some c1 /\ maxDistance c1 = 10 /\
    maxDistance c1 * maxDistance c1
    < distance2 (cam_position (camera s1)) (target c1).
Proof.
  assert (Hk : keeps_settings resting_update).
  { intros c cam. repeat split. }
  assert (Hf : 0 < fov (camera (started sample_new resting_update)) < 360)
    by (evaluate; split; lra).
  assert (Hb : 12.5 < maxDim (measured big_asset)).
  { evaluate. unfold Rmin, Rmax.
    repeat match goal with
           | |- context [Rle_dec ?a ?b] => destruct (Rle_dec a b)
           end; lra. }
  split; [exact Hk|]. split; [apply started_reachable|].
  split; [reflexivity|]. split; [exact Hf|]. split; [exact Hb|].
  apply (framing_can_exceed_maxDistance sample_new resting_update big_asset
           (started sample_new resting_update) Hk
           (started_reachable sample_new resting_update) eq_refl Hf Hb).
Defined.

(** X20 on the sample page, after its load has failed. *)
Lemma failed_load_stays_empty_sample :
  reachable sample_new resting_update (failed sample_new resting_update) /\
  loading (page (failed sample_new resting_update)) = false /\
  model (failed sample_new resting_update) = None /\
  admissible resting_update [Frame 16; Resize 640 480; Frame 33]
    (failed sample_new resting_update) = true /\
  model (run resting_update [Frame 16; Resize 640 480; Frame 33]
           (failed sample_new resting_update)) = None /\
  objects (run resting_update [Frame 16; Resize 640 480; Frame 33]
             (failed sample_new resting_update)) = [] /\
  mixer (run resting_update [Frame 16; Resize 640 480; Frame 33]
           (failed sample_new resting_update)) = None /\
  scene (run resting_update [Frame 16; Resize 640 480; Frame 33]
           (failed sample_new resting_update)) = lights.
Proof.
  assert (Ha : admissible resting_update [Frame 16; Resize 640 480; Frame 33]
                 (failed sample_new resting_update) = true)
    by (evaluate; reflexivity).
  split; [apply failed_reachable|]. split; [reflexivity|].
  split; [reflexivity|]. split; [exact Ha|].
  apply (failed_load_stays_empty sample_new resting_update
           [Frame 16; Resize 640 480; Frame 33]
           (failed sample_new resting_update)
           (failed_reachable sample_new resting_update) eq_refl eq_refl Ha).
Defined.
